(** * Transactional KV client: a shallow embedding of [client/kv.go]

    The development follows the Go packages of the repository:
    - [proto]  : the value envelope, timestamps, transactions, request and
                 response headers ([proto/data.proto] and the messages
                 [client/kv.go] builds);
    - [util]   : the retry options and the retry loop used by the driver;
    - [client] : [KV], [Call], [RunTransaction], [GetI], [GetProto],
                 [PutI]/[PutProto] via [putInternal].

    Go values are modelled as the code has them: [int32]/[int64] and
    [time.Duration] as [Z], byte slices as [list byte] under [option] when the
    slice may be nil, pointers to optional protobuf fields as [option].
    A Go function that may panic returns an [Outcome]; code that mutates
    the sender, the routing layer or captured variables threads a [World]. *)

From Stdlib Require Import ZArith List String Bool Lia.
From Stdlib.Strings Require Import Byte.
Import ListNotations.
Open Scope Z_scope.

(** ** Go control flow and errors *)

(** The result of running a Go function: it returns, or it panics and the
    stack unwinds. *)
Inductive Outcome (A : Type) : Type :=
| Returned (a : A)
| Panicked.
Arguments Returned {A} a.
Arguments Panicked {A}.

(** The dynamic types of the [error] values that flow through the client.
    The first eight are the response errors of [proto]; [Errorf] is an error
    built by [util.Errorf] (only the format string is kept), [ErrorsNew] one
    built by [errors.New], [DecodeError] a failure of the gob or protobuf
    decoder. *)
Inductive GoError : Type :=
| ReadWithinUncertaintyIntervalError
| TransactionAbortedError
| TransactionPushError
| TransactionRetryError
| TransactionStatusError
| RangeNotFoundError
| RangeKeyMismatchError
| GenericError (Message : string)
| IntegrityError
| RetryMaxAttemptsError (MaxAttempts : Z)
| Errorf (format : string)
| ErrorsNew (text : string)
| DecodeError (text : string).

(** A Go [error] interface value; [None] is [nil]. *)
Definition error : Type := option GoError.

Definition is_nil (err : error) : bool :=
  match err with None => true | Some _ => false end.

(** ** Package proto *)
Module proto.

Definition Key : Type := list byte.

Record Timestamp : Type := {
  WallTime : Z;
  Logical : Z
}.

(** [proto.Timestamp{}] *)
Definition zeroTimestamp : Timestamp := {| WallTime := 0; Logical := 0 |}.

(** message Value: every field is optional. *)
Record Value : Type := {
  Bytes : option (list byte);
  Integer : option Z;
  Checksum : option Z;
  ValueTimestamp : option Timestamp
}.

Inductive IsolationType : Type := SERIALIZABLE | SNAPSHOT.

Inductive TransactionStatus : Type := PENDING | COMMITTED | ABORTED.

Record Transaction : Type := {
  Name : string;
  ID : list byte;
  Priority : Z;
  Isolation : IsolationType;
  Status : TransactionStatus;
  Epoch : Z;
  TxnTimestamp : Timestamp;
  MaxTimestamp : Timestamp;
  LastHeartbeat : option Timestamp
}.

(** Modelled from the spec: the method tags of the request taxonomy
    ([proto/api.proto] is not among the sources). *)
Inductive Method : Type :=
| Get | Put | ConditionalPut | Increment | Delete | DeleteRange | Scan
| EndTransaction
| InternalEndTxn | InternalHeartbeatTxn | InternalPushTxn
| InternalResolveIntent | InternalRangeLookup | InternalSnapshotCopy.

Definition Method_eqb (a b : Method) : bool :=
  match a, b with
  | Get, Get | Put, Put | ConditionalPut, ConditionalPut
  | Increment, Increment | Delete, Delete | DeleteRange, DeleteRange
  | Scan, Scan | EndTransaction, EndTransaction
  | InternalEndTxn, InternalEndTxn
  | InternalHeartbeatTxn, InternalHeartbeatTxn
  | InternalPushTxn, InternalPushTxn
  | InternalResolveIntent, InternalResolveIntent
  | InternalRangeLookup, InternalRangeLookup
  | InternalSnapshotCopy, InternalSnapshotCopy => true
  | _, _ => false
  end.

(** Modelled from the spec: RequestHeader{key, user, user_priority, txn,
    command_id} ([proto/api.proto] is not among the sources). As
    [client/kv.go] uses it, [User] is a string that is empty when unset and
    [UserPriority] a [*int32]; [Txn] is a [*Transaction], [CmdID] the
    (wall time, random) pair. *)
Record RequestHeader : Type := {
  ReqKey : Key;
  User : string;
  UserPriority : option Z;
  Txn : option Transaction;
  CmdID : Z * Z
}.

(** [proto.RequestHeader{Key: key}] *)
Definition headerWithKey (key : Key) : RequestHeader :=
  {| ReqKey := key; User := EmptyString; UserPriority := None;
     Txn := None; CmdID := (0, 0) |}.

(** The part of a request beside its header, for the requests that
    [client/kv.go] builds. *)
Inductive RequestBody : Type :=
| GetRequest
| PutRequest (value : Value)
| EndTransactionRequest (Commit : bool)
| OtherRequest.

Record Request : Type := {
  Header : RequestHeader;
  Body : RequestBody
}.

(** Modelled from the spec: ResponseHeader{error, txn, timestamp}
    ([proto/api.proto] is not among the sources). *)
Record ResponseHeader : Type := {
  Error : error;
  RespTxn : option Transaction;
  RespTimestamp : Timestamp
}.

(** What the sender writes into the reply object: the header and, for a
    [GetResponse], the [Value] field. *)
Record Response : Type := {
  RHeader : ResponseHeader;
  RValue : option Value
}.

(** [reply.Header().GoError()] *)
Definition GoErrorOf (r : Response) : error := Error (RHeader r).

(** *** Checksums *)

(** [crc32.ChecksumIEEE]: reflected CRC-32 with polynomial 0xEDB88320,
    initial value and final xor 0xFFFFFFFF, one bit at a time. *)
Definition crc_shift (c : Z) : Z :=
  if Z.testbit c 0 then Z.lxor (Z.shiftr c 1) 0xEDB88320 else Z.shiftr c 1.

Definition crc_byte (c : Z) (b : byte) : Z :=
  Nat.iter 8 crc_shift (Z.lxor c (Z.of_N (Byte.to_N b))).

Definition ChecksumIEEE (p : list byte) : Z :=
  Z.lxor (fold_left crc_byte p 0xFFFFFFFF) 0xFFFFFFFF.

Definition byte_of_Z (z : Z) : byte :=
  match Byte.of_N (Z.to_N (z mod 256)) with
  | Some b => b
  | None => x00
  end.

(** The 8-byte big-endian form of [uint64(i)]. *)
Definition EncodeUint64 (i : Z) : list byte :=
  let u := i mod 2 ^ 64 in
  map (fun k => byte_of_Z (Z.shiftr u (8 * k))) [7; 6; 5; 4; 3; 2; 1; 0].

(** Modelled from the spec: [proto/data.go] is not among the sources. The
    payload bytes of a value are the raw bytes, or the big-endian 8-byte
    form of the integer. *)
Definition payload_bytes (v : Value) : list byte :=
  match Bytes v, Integer v with
  | Some b, _ => b
  | None, Some i => EncodeUint64 i
  | None, None => []
  end.

(** Modelled from the spec: [proto/data.go] is not among the sources. The
    checksum is the CRC-32/IEEE over [key || payload_bytes]. *)
Definition computeChecksum (v : Value) (key : Key) : Z :=
  ChecksumIEEE (key ++ payload_bytes v).

(** Modelled from the spec: [Value.InitChecksum] of [proto/data.go], which
    is not among the sources: compute and store the CRC over
    [key || payload_bytes]; no-op if a checksum is already set. *)
Definition InitChecksum (v : Value) (key : Key) : Value :=
  match Checksum v with
  | Some _ => v
  | None =>
      {| Bytes := Bytes v; Integer := Integer v;
         Checksum := Some (computeChecksum v key);
         ValueTimestamp := ValueTimestamp v |}
  end.

(** Modelled from the spec: [Value.Verify] of [proto/data.go], which is not
    among the sources: recompute and compare; fails with [IntegrityError]
    on mismatch; an absent checksum is permitted. *)
Definition Verify (v : Value) (key : Key) : error :=
  match Checksum v with
  | Some c => if c =? computeChecksum v key then None else Some IntegrityError
  | None => None
  end.

(** *** Test values *)

(** A value that arrives with a checksum that is not its own. *)
Definition staleValue : Value :=
  {| Bytes := Some [x76]; Integer := None; Checksum := Some 0;
     ValueTimestamp := None |}.

Definition bytesValue (b : list byte) : Value :=
  {| Bytes := Some b; Integer := None; Checksum := None;
     ValueTimestamp := None |}.

Definition integerValue (i : Z) : Value :=
  {| Bytes := None; Integer := Some i; Checksum := None;
     ValueTimestamp := None |}.

(** The value with another payload and the checksum left as it is. *)
Definition withBytes (b : list byte) (v : Value) : Value :=
  {| Bytes := Some b; Integer := Integer v; Checksum := Checksum v;
     ValueTimestamp := ValueTimestamp v |}.

(** Two payloads, and two keys, on which the CRC cannot tell apart. *)
Definition payloadA : list byte := [x61; x5d; xf1; x65; xfd].
Definition payloadB : list byte := [x62; xe7; xa0; x6c; x64].
Definition keyA : Key := [x61; x43; xbe; xb7; xe8].
Definition keyB : Key := [x62; xf9; xef; xbe; x71].

End proto.

(** ** Package util *)
Module util.

(** Modelled from the spec: the three answers of a retry worker, as
    [client/kv.go] uses them ([util/retry.go] is not among the sources). *)
Inductive RetryStatus : Type := RetryBreak | RetryReset | RetryContinue.

(** [time.Duration] is a count of nanoseconds. *)
Definition Duration : Type := Z.
Definition Millisecond : Duration := 1000000.
Definition Second : Duration := 1000 * Millisecond.

(** Modelled from the spec: [util.RetryOptions], with the fields
    [client/kv.go] sets ([util/retry.go] is not among the sources). *)
Record RetryOptions : Type := {
  Tag : string;
  Backoff : Duration;
  MaxBackoff : Duration;
  Constant : Z;
  MaxAttempts : Z
}.

(** Modelled from the spec: exponential backoff, the backoff after one more
    failed attempt is the current one multiplied by the constant and capped
    at the maximum. *)
Definition next_backoff (opts : RetryOptions) (backoff : Duration) : Duration :=
  Z.min (backoff * Constant opts) (MaxBackoff opts).

(** The backoff in force after [n] consecutive [RetryContinue] answers. *)
Definition backoff_after (opts : RetryOptions) (n : nat) : Duration :=
  Nat.iter n (next_backoff opts) (Backoff opts).

Section Retry.
Context {S : Type}.

(** What sleeping for a duration does to the state (the test doubles
    record it in a trace). *)
Variable sleep : Duration -> S -> S.

(** Modelled from the spec: [util.RetryWithBackoff] is not among the
    sources. [fn] is run until it answers [RetryBreak], whose error is the
    result. On [RetryReset] the next attempt follows at once, with the
    backoff and the attempt count back at their initial values; on
    [RetryContinue] the loop sleeps for the current backoff, which then
    grows by the constant up to the maximum. [MaxAttempts = 0] retries
    indefinitely; a positive value bounds the number of attempts. A panic
    of [fn] unwinds through the loop. [fuel] bounds the number of
    attempts the model follows: [None] means it was too small. *)
Fixpoint retry_loop (fuel : nat) (opts : RetryOptions)
    (fn : S -> Outcome (RetryStatus * error) * S)
    (backoff : Duration) (count : Z) (s : S) : option (Outcome error * S) :=
  match fuel with
  | O => None
  | Datatypes.S fuel' =>
      match fn s with
      | (Panicked, s1) => Some (Panicked, s1)
      | (Returned (RetryBreak, err), s1) => Some (Returned err, s1)
      | (Returned (RetryReset, _), s1) =>
          retry_loop fuel' opts fn (Backoff opts) 1 s1
      | (Returned (RetryContinue, _), s1) =>
          if (0 <? MaxAttempts opts) && (MaxAttempts opts <=? count)
          then Some (Returned (Some (RetryMaxAttemptsError (MaxAttempts opts))), s1)
          else retry_loop fuel' opts fn (next_backoff opts backoff)
                 (count + 1) (sleep backoff s1)
      end
  end.

(** Modelled from the spec: the loop starts with the initial backoff, at
    the first attempt. *)
Definition RetryWithBackoff (fuel : nat) (opts : RetryOptions)
    (fn : S -> Outcome (RetryStatus * error) * S) (s : S)
    : option (Outcome error * S) :=
  retry_loop fuel opts fn (Backoff opts) 1 s.
End Retry.

End util.

(** ** Package client *)
Module client.
Import proto util.

(** TxnRetryOptions sets the retry options for handling write conflicts. *)
Definition TxnRetryOptions : RetryOptions :=
  {| Tag := EmptyString;
     Backoff := 50 * Millisecond;
     MaxBackoff := 5 * Second;
     Constant := 2;
     MaxAttempts := 0 (* retry indefinitely *) |}.

Record TransactionOptions : Type := {
  Name : string;
  Isolation : IsolationType
}.

(** A call as the sender receives it; the reply object is what [Send]
    gives back. *)
Record Call : Type := {
  Method : proto.Method;
  Args : Request
}.

(** What can be observed of a run: the calls that reached the routing
    layer, the backoff sleeps, the error log and the closing of the
    transactional sender, in the order they happened. *)
Inductive Event : Type :=
| Sent (call : Call)
| Slept (d : Duration)
| Logged (format : string)
| Closed.

(** The environment a client runs in: the default clock and the random
    source used when a transaction record is created. *)
Class Runtime (St : Type) : Type := {
  UnixNanos : St -> Z;
  randomID : St -> list byte;
  randomPriority : St -> Z;
  maxClockSkew : Z
}.

(** A closure handed to [RunTransaction]. It talks to the database only
    through [txn.Call]; the continuation receives the reply. [u] stands for
    the variables the closure captures, as they are when it returns or
    panics. *)
Inductive Prog (U : Type) : Type :=
| Return (u : U) (err : error)
| Panic (u : U)
| DoCall (method : proto.Method) (args : Request) (k : Response -> Prog U).
Arguments Return {U} u err.
Arguments Panic {U} u.
Arguments DoCall {U} method args k.

Section Client.
Context {St U : Type} {RT : Runtime St}.

(** [Send] of the external routing layer: it populates the reply. *)
Definition RoutingSend : Type := Call -> St -> Response * St.

(** A clock reads the time off the environment. *)
Definition Clock : Type := St -> Z.

(** Everything the client code reads and writes: the routing layer's
    state, the trace, the two mutable fields of the transactional sender
    and the closure's captured variables. *)
Record World : Type := {
  wire : St;
  trace : list Event;
  txnEnd : bool;
  txn : Transaction;
  captured : U
}.

Definition record (ev : Event) (w : World) : World :=
  {| wire := wire w; trace := trace w ++ [ev]; txnEnd := txnEnd w;
     txn := txn w; captured := captured w |}.

Definition set_txnEnd (b : bool) (w : World) : World :=
  {| wire := wire w; trace := trace w; txnEnd := b;
     txn := txn w; captured := captured w |}.

Definition set_txn (t : Transaction) (w : World) : World :=
  {| wire := wire w; trace := trace w; txnEnd := txnEnd w;
     txn := t; captured := captured w |}.

Definition set_wire (st : St) (w : World) : World :=
  {| wire := st; trace := trace w; txnEnd := txnEnd w;
     txn := txn w; captured := captured w |}.

Definition set_captured (u : U) (w : World) : World :=
  {| wire := wire w; trace := trace w; txnEnd := txnEnd w;
     txn := txn w; captured := u |}.

(** The two concrete types behind the [KVSender] interface. *)
Inductive SenderType : Type := singleCallSender | txnSender.

(** A [KVSender] interface value: its dynamic type, the sender it wraps
    and its two methods. *)
Record KVSender : Type := {
  dynType : SenderType;
  wrapped : RoutingSend;
  Send : Call -> World -> Response * World;
  Close : World -> World
}.

Record KV : Type := {
  User : string;
  UserPriority : Z;
  sender : KVSender;
  clock : option Clock
}.

(** Sender returns the sender supplied to NewKV. *)
Definition Sender (kv : KV) : RoutingSend := wrapped (sender kv).

Definition set_User (user : string) (h : RequestHeader) : RequestHeader :=
  {| ReqKey := ReqKey h; proto.User := user;
     proto.UserPriority := proto.UserPriority h;
     Txn := Txn h; CmdID := CmdID h |}.

Definition set_UserPriority (p : option Z) (h : RequestHeader) : RequestHeader :=
  {| ReqKey := ReqKey h; proto.User := proto.User h;
     proto.UserPriority := p;
     Txn := Txn h; CmdID := CmdID h |}.

Definition set_Txn (t : option Transaction) (h : RequestHeader) : RequestHeader :=
  {| ReqKey := ReqKey h; proto.User := proto.User h;
     proto.UserPriority := proto.UserPriority h;
     Txn := t; CmdID := CmdID h |}.

Definition is_none {A : Type} (o : option A) : bool :=
  match o with None => true | Some _ => false end.

(** The two header defaults at the top of [KV.Call]. *)
Definition decorate (kv : KV) (h : RequestHeader) : RequestHeader :=
  let h := if String.eqb (proto.User h) EmptyString
           then set_User (User kv) h else h in
  if is_none (proto.UserPriority h) && negb (UserPriority kv =? 0)
  then set_UserPriority (Some (UserPriority kv)) h else h.

(** The user priority [KV.Call] gives a request that has none. *)
Definition defaultPriority (kv : KV) : option Z :=
  if UserPriority kv =? 0 then None else Some (UserPriority kv).

(** Call invokes the KV command synchronously and returns the error, if
    applicable, together with the reply as the sender filled it. *)
Definition KV_Call (kv : KV) (method : proto.Method) (args : Request)
    (w : World) : (error * Response) * World :=
  let call := {| Method := method;
                 Args := {| Header := decorate kv (Header args);
                            Body := Body args |} |} in
  let (reply, w') := Send (sender kv) call w in
  ((GoErrorOf reply, reply), w').

(** Modelled from the spec: the merge of a returned transaction into the
    coordinator's record ([client/txn_sender.go] is not among the
    sources): adopt the returned status, timestamp, priority and epoch;
    on [TransactionAbortedError] adopt the new transaction as a whole. *)
Definition merge_txn (err : error) (cur ret : Transaction) : Transaction :=
  match err with
  | Some TransactionAbortedError => ret
  | _ =>
      {| proto.Name := proto.Name cur; ID := ID cur;
         Priority := Priority ret;
         proto.Isolation := proto.Isolation cur;
         Status := Status ret; Epoch := Epoch ret;
         TxnTimestamp := TxnTimestamp ret;
         MaxTimestamp := MaxTimestamp cur;
         LastHeartbeat := LastHeartbeat cur |}
  end.

(** The call with the transaction attached to its request header. *)
Definition withTxn (t : Transaction) (call : Call) : Call :=
  {| Method := Method call;
     Args := {| Header := set_Txn (Some t) (Header (Args call));
                Body := Body (Args call) |} |}.

(** Modelled from the spec: [txnSender.Send] of [client/txn_sender.go],
    which is not among the sources: attach the current transaction to the
    request header, forward to the wrapped sender, merge a returned
    transaction, and set [txnEnd] if the call was [EndTransaction],
    regardless of success. The call is appended to the trace as the
    routing layer receives it. *)
Definition txnSender_Send (routing : RoutingSend) (call : Call) (w : World)
    : Response * World :=
  let call' := withTxn (txn w) call in
  let (reply, st') := routing call' (wire w) in
  let w1 := record (Sent call') (set_wire st' w) in
  let w2 := match RespTxn (RHeader reply) with
            | Some t => set_txn (merge_txn (GoErrorOf reply) (txn w1) t) w1
            | None => w1
            end in
  let w3 := if Method_eqb (Method call) EndTransaction
            then set_txnEnd true w2 else w2 in
  (reply, w3).

(** Modelled from the spec: the transaction record a new transactional
    sender starts with ([newTxnSender] is not among the sources). *)
Definition newTransaction (clk : option Clock) (opts : TransactionOptions)
    (st : St) : Transaction :=
  let now := match clk with Some c => c st | None => UnixNanos st end in
  {| proto.Name := Name opts; ID := randomID st;
     Priority := randomPriority st;
     proto.Isolation := Isolation opts;
     Status := PENDING; Epoch := 0;
     TxnTimestamp := {| WallTime := now; Logical := 0 |};
     MaxTimestamp := {| WallTime := now + maxClockSkew; Logical := 0 |};
     LastHeartbeat := None |}.

(** Modelled from the spec: the [KVSender] value of a transactional sender
    wrapping [routing] ([newTxnSender] is not among the sources); closing
    it is recorded in the trace. *)
Definition newTxnSender (routing : RoutingSend) : KVSender :=
  {| dynType := txnSender; wrapped := routing;
     Send := txnSender_Send routing;
     Close := record Closed |}.

(** The call the routing layer receives when [method] and [args] go
    through the transactional handle made for [kv]. *)
Definition wireCall (kv : KV) (method : proto.Method) (args : Request)
    (w : World) : Call :=
  withTxn (txn w)
    {| Method := method;
       Args := {| Header := decorate kv (Header args);
                  Body := Body args |} |}.

(** Running the closure against a handle. *)
Fixpoint run (kv : KV) (p : Prog U) (w : World) : Outcome error * World :=
  match p with
  | Return u err => (Returned err, set_captured u w)
  | Panic u => (Panicked, set_captured u w)
  | DoCall method args k =>
      let '((_, reply), w') := KV_Call kv method args w in
      run kv (k reply) w'
  end.

Definition emptyHeader : RequestHeader := headerWithKey [].

Definition endTransactionArgs (commit : bool) : Request :=
  {| Header := emptyHeader; Body := EndTransactionRequest commit |}.

(** One epoch up to the dispatch: reset [txnEnd], run the closure, and
    commit if it returned no error and did not end the transaction. The
    result is the error the [switch] then inspects. *)
Definition epoch_err (txnKV : KV) (retryable : U -> Prog U) (w : World)
    : Outcome error * World :=
  let w0 := set_txnEnd false w in
  match run txnKV (retryable (captured w0)) w0 with
  | (Panicked, w1) => (Panicked, w1)
  | (Returned err, w1) =>
      if is_nil err && negb (txnEnd w1) then
        let '((_, etReply), w2) :=
          KV_Call txnKV EndTransaction (endTransactionArgs true) w1 in
        (Returned (GoErrorOf etReply), w2)
      else (Returned err, w1)
  end.

(** The type switch on the result error. *)
Definition dispatch (err : error) : RetryStatus * error :=
  match err with
  | Some ReadWithinUncertaintyIntervalError => (RetryReset, None)
  | Some TransactionAbortedError => (RetryContinue, None)
  | Some TransactionPushError => (RetryContinue, None)
  | Some TransactionRetryError => (RetryReset, None)
  | t => (RetryBreak, t)
  end.

(** The function literal passed to [util.RetryWithBackoff]. *)
Definition epoch (txnKV : KV) (retryable : U -> Prog U) (w : World)
    : Outcome (RetryStatus * error) * World :=
  match epoch_err txnKV retryable w with
  | (Panicked, w1) => (Panicked, w1)
  | (Returned err, w1) => (Returned (dispatch err), w1)
  end.

Definition sleep (d : Duration) (w : World) : World := record (Slept d) w.

Definition retryOptsFor (opts : TransactionOptions) : RetryOptions :=
  {| Tag := Name opts;
     Backoff := Backoff TxnRetryOptions;
     MaxBackoff := MaxBackoff TxnRetryOptions;
     Constant := Constant TxnRetryOptions;
     MaxAttempts := MaxAttempts TxnRetryOptions |}.

Definition nestedMessage : string :=
  "cannot invoke RunTransaction on an already-transactional client".

Definition abortLogFormat : string :=
  "failure aborting transaction: %s; abort caused by: %s".

(** The transactional handle of [RunTransaction]. *)
Definition txnKVof (kv : KV) : KV :=
  {| User := User kv; UserPriority := UserPriority kv;
     sender := newTxnSender (Sender kv); clock := None |}.

(** The world once [newTxnSender] has built the transactional sender:
    a fresh transaction record, [txnEnd] false. *)
Definition begin (kv : KV) (opts : TransactionOptions) (w : World) : World :=
  set_txnEnd false (set_txn (newTransaction (clock kv) opts (wire w)) w).

(** What follows the retry loop: abort if it left an error and the
    transaction is still open; the deferred [Close] runs last. *)
Definition finish (txnKV : KV) (r : Outcome error * World)
    : Outcome error * World :=
  match r with
  | (Panicked, w1) => (Panicked, Close (sender txnKV) w1)
  | (Returned err, w1) =>
      if negb (is_nil err) && negb (txnEnd w1) then
        let '((_, etReply), w2) :=
          KV_Call txnKV EndTransaction (endTransactionArgs false) w1 in
        let w3 := if is_nil (GoErrorOf etReply) then w2
                  else record (Logged abortLogFormat) w2 in
        (Returned err, Close (sender txnKV) w3)
      else (Returned None, Close (sender txnKV) w1)
  end.

(** RunTransaction executes retryable in the context of a distributed
    transaction. [None] means [fuel] epochs were not enough. *)
Definition RunTransaction (fuel : nat) (kv : KV) (opts : TransactionOptions)
    (retryable : U -> Prog U) (w : World) : option (Outcome error * World) :=
  match dynType (sender kv) with
  | txnSender => Some (Returned (Some (Errorf nestedMessage)), w)
  | singleCallSender =>
      let txnKV := txnKVof kv in
      match RetryWithBackoff sleep fuel (retryOptsFor opts)
              (epoch txnKV retryable) (begin kv opts w) with
      | None => None
      | Some r => Some (finish txnKV r)
      end
  end.

(** [&proto.GetRequest{RequestHeader: proto.RequestHeader{Key: key}}] *)
Definition getArgs (key : Key) : Request :=
  {| Header := headerWithKey key; Body := GetRequest |}.

(** getInternal fetches the requested key and returns the value. *)
Definition getInternal (kv : KV) (key : Key) (w : World)
    : (option Value * error) * World :=
  let '((err, reply), w') := KV_Call kv Get (getArgs key) w in
  match err with
  | Some e => ((None, Some e), w')
  | None =>
      match RValue reply with
      | Some v => ((Some v, Verify v key), w')
      | None => ((None, None), w')
      end
  end.

(** The common body of [GetI] and [GetProto]; [decode] is the gob
    decoder into [iface], resp. the protobuf decoder into [msg]. Reading
    [*value.Timestamp] of a value without timestamp panics. *)
Definition getDecoded (integerFormat : string) (decode : list byte -> error)
    (kv : KV) (key : Key) (w : World)
    : Outcome (bool * Timestamp * error) * World :=
  let '((value, err), w') := getInternal kv key w in
  match err, value with
  | Some e, _ => (Returned (false, zeroTimestamp, Some e), w')
  | None, None => (Returned (false, zeroTimestamp, None), w')
  | None, Some v =>
      match Integer v with
      | Some _ =>
          (Returned (false, zeroTimestamp, Some (Errorf integerFormat)), w')
      | None =>
          match ValueTimestamp v with
          | None => (Panicked, w')
          | Some ts =>
              let bytes := match Bytes v with Some b => b | None => [] end in
              (Returned (true, ts, decode bytes), w')
          end
      end
  end.

Definition integerFormat : string :=
  "unexpected integer value at key %q: %+v".

(** GetI fetches the value at the specified key and gob-deserializes it. *)
Definition GetI (gobDecode : list byte -> error) (kv : KV) (key : Key)
    (w : World) : Outcome (bool * Timestamp * error) * World :=
  getDecoded integerFormat gobDecode kv key w.

(** GetProto fetches the value at the specified key and unmarshals it. *)
Definition GetProto (unmarshal : list byte -> error) (kv : KV) (key : Key)
    (w : World) : Outcome (bool * Timestamp * error) * World :=
  getDecoded integerFormat unmarshal kv key w.

(** putInternal writes the specified value to key. *)
Definition putInternal (kv : KV) (key : Key) (value : Value) (w : World)
    : error * World :=
  let value := InitChecksum value key in
  let '((err, _), w') :=
    KV_Call kv Put {| Header := headerWithKey key; Body := PutRequest value |} w in
  (err, w').

(** PutI sets the given key to the gob-serialized byte string of value,
    given the outcome of the encoding. *)
Definition PutI (kv : KV) (key : Key) (encoded : list byte + GoError)
    (w : World) : error * World :=
  match encoded with
  | inr e => (Some e, w)
  | inl buf =>
      putInternal kv key
        {| Bytes := Some buf; Integer := None; Checksum := None;
           ValueTimestamp := None |} w
  end.

(** PutProto sets the given key to the protobuf-serialized byte string of
    msg, given the outcome of marshalling. *)
Definition PutProto (kv : KV) (key : Key) (marshalled : list byte + GoError)
    (w : World) : error * World :=
  match marshalled with
  | inr e => (Some e, w)
  | inl data =>
      putInternal kv key
        {| Bytes := Some data; Integer := None; Checksum := None;
           ValueTimestamp := None |} w
  end.

(** *** Observations on traces *)

Definition isEndTransaction (ev : Event) : bool :=
  match ev with
  | Sent c => Method_eqb (Method c) EndTransaction
  | _ => false
  end.

(** The number of [EndTransaction] calls among the events. *)
Definition EndTransactions (evs : list Event) : nat :=
  List.length (filter isEndTransaction evs).

(** The calls among the events. *)
Definition sentCalls (evs : list Event) : list Call :=
  flat_map (fun ev => match ev with Sent c => [c] | _ => [] end) evs.

(** Method and body of the calls among the events. *)
Definition sentSummary (evs : list Event) : list (proto.Method * RequestBody) :=
  map (fun c => (Method c, Body (Args c))) (sentCalls evs).

(** The events recorded after [w], up to [w']. *)
Definition since (w w' : World) : list Event :=
  skipn (List.length (trace w)) (trace w').

(** The event is not a call, or it is a call whose header carries this
    user and user priority. *)
Definition carries (user : string) (prio : option Z) (ev : Event) : Prop :=
  match ev with
  | Sent c =>
      proto.User (Header (Args c)) = user /\
      proto.UserPriority (Header (Args c)) = prio
  | _ => True
  end.

(** The closure leaves user and user priority unset in all its requests. *)
Inductive plain : Prog U -> Prop :=
| plain_Return u err : plain (Return u err)
| plain_Panic u : plain (Panic u)
| plain_DoCall method args k :
    proto.User (Header args) = EmptyString ->
    proto.UserPriority (Header args) = None ->
    (forall reply, plain (k reply)) ->
    plain (DoCall method args k).

End Client.

Arguments World : clear implicits.
Arguments KV : clear implicits.
Arguments KVSender : clear implicits.
Arguments RoutingSend : clear implicits.

(** *** Test doubles

    The routing layer of the tests counts the calls it receives and lets a
    handler fill the reply, as [newTestSender] does in [client/kv_test.go]. *)

Definition okReply : Response :=
  {| RHeader := {| Error := None; RespTxn := None;
                   RespTimestamp := zeroTimestamp |};
     RValue := None |}.

Definition errReply (e : GoError) : Response :=
  {| RHeader := {| Error := Some e; RespTxn := None;
                   RespTimestamp := zeroTimestamp |};
     RValue := None |}.

Definition valueReply (v : Value) : Response :=
  {| RHeader := {| Error := None; RespTxn := None;
                   RespTimestamp := zeroTimestamp |};
     RValue := Some v |}.

Definition newTestSender (handler : Call -> nat -> Response) : RoutingSend nat :=
  fun call count => (handler call count, S count).

#[export] Instance testRuntime : Runtime nat :=
  {| UnixNanos := fun _ => 0;
     randomID := fun _ => [x01];
     randomPriority := fun _ => 1;
     maxClockSkew := 0 |}.

(** A non-transactional handle whose sender hands each call to the routing
    layer once. *)
Definition testKV {U : Type} (user : string) (prio : Z)
    (routing : RoutingSend nat) : KV nat U :=
  {| User := user; UserPriority := prio;
     sender := {| dynType := singleCallSender; wrapped := routing;
                  Send := fun call w =>
                    let (reply, st') := routing call (wire w) in
                    (reply, record (Sent call) (set_wire st' w));
                  Close := fun w => w |};
     clock := None |}.

(** The routing layer that answers every call with success, and a handle
    on it with user "foo" and user priority 101, as in
    TestKVTransactionSender. *)
Definition okSender : RoutingSend nat := newTestSender (fun _ _ => okReply).

Definition testClient : KV nat nat := testKV "foo" 101 okSender.

Definition zeroTransaction : Transaction :=
  {| proto.Name := EmptyString; ID := []; Priority := 0;
     proto.Isolation := SERIALIZABLE; Status := PENDING; Epoch := 0;
     TxnTimestamp := zeroTimestamp; MaxTimestamp := zeroTimestamp;
     LastHeartbeat := None |}.

Definition testWorld {U : Type} (u : U) : World nat U :=
  {| wire := O; trace := []; txnEnd := false; txn := zeroTransaction;
     captured := u |}.

Definition testOpts : TransactionOptions :=
  {| Name := EmptyString; Isolation := SERIALIZABLE |}.

Definition putArgs : Request :=
  {| Header := headerWithKey [x61];
     Body := PutRequest {| Bytes := Some [x76]; Integer := None;
                           Checksum := None; ValueTimestamp := None |} |}.

(** The handler of TestKVRunTransactionRetryOnErrors: the first Put fails
    with [e]. *)
Definition failFirstPut (e : GoError) (call : Call) (count : nat) : Response :=
  match Method call, count with
  | Put, O => errReply e
  | _, _ => okReply
  end.

(** Closures of the tests: one Put, an empty closure, a failing one, one
    that ends the transaction itself, one that panics, and one that fails
    with a retry error on its first run only (it counts its runs). *)
Definition putOnce (u : nat) : Prog nat :=
  DoCall Put putArgs (fun reply => Return (S u) (GoErrorOf reply)).

Definition emptyClosure (u : nat) : Prog nat := Return (S u) None.

Definition failingClosure (u : nat) : Prog nat :=
  Return (S u) (Some (ErrorsNew "foo")).

Definition endingClosure (u : nat) : Prog nat :=
  DoCall EndTransaction (endTransactionArgs true)
    (fun reply => Return (S u) None).

Definition panickingClosure (u : nat) : Prog nat := Panic (S u).

Definition retryOnceClosure (u : nat) : Prog nat :=
  match u with
  | O => Return 1%nat (Some TransactionRetryError)
  | S _ => Return (S u) None
  end.

End client.

(** ** A routing layer that stores values *)
Module store.
Import proto util client.

Definition key_eqb (a b : Key) : bool :=
  if list_eq_dec byte_eq_dec a b then true else false.

(** The values stored, the latest first. *)
Definition Store : Type := list (Key * Value).

Fixpoint lookup (key : Key) (st : Store) : option Value :=
  match st with
  | [] => None
  | (k, v) :: rest => if key_eqb key k then Some v else lookup key rest
  end.

(** The value as the storage hands it back: with the timestamp of the
    write. *)
Definition stamped (ts : Timestamp) (v : Value) : Value :=
  {| Bytes := Bytes v; Integer := Integer v; Checksum := Checksum v;
     ValueTimestamp := Some ts |}.

(** Put stores the value of the request under the key of the request,
    stamped with the number of writes so far; Get answers with the value
    stored last under the key, or with no value. *)
Definition storeSender : RoutingSend Store :=
  fun call st =>
    match Body (Args call) with
    | PutRequest v =>
        (okReply,
         (ReqKey (Header (Args call)),
          stamped {| WallTime := Z.of_nat (List.length st); Logical := 0 |} v)
         :: st)
    | GetRequest =>
        (match lookup (ReqKey (Header (Args call))) st with
         | Some v => valueReply v
         | None => okReply
         end, st)
    | _ => (okReply, st)
    end.

(** A non-transactional handle on the store whose sender hands each call
    to the routing layer once. *)
Definition storeKV (user : string) (prio : Z) : KV Store unit :=
  {| User := user; UserPriority := prio;
     sender := {| dynType := singleCallSender; wrapped := storeSender;
                  Send := fun call w =>
                    let (reply, st') := storeSender call (wire w) in
                    (reply, record (Sent call) (set_wire st' w));
                  Close := fun w => w |};
     clock := None |}.

Definition emptyStore : World Store unit :=
  {| wire := []; trace := []; txnEnd := false; txn := zeroTransaction;
     captured := tt |}.

(** A reply holding a value with bytes and a timestamp but no checksum. *)
Definition timedReply : Response :=
  valueReply (stamped {| WallTime := 5; Logical := 0 |} (bytesValue [x76])).

End store.

(** ** More observations on traces *)
Module traces.
Import proto util client.

(** The backoff sleeps among the events. *)
Definition sleeps (evs : list Event) : list Duration :=
  flat_map (fun ev => match ev with Slept d => [d] | _ => [] end) evs.

End traces.

(** ** Package engine: range and store statistics *)
Module engine.
Import proto.

(** The storage engine as the statistics code uses it: [Merge] and [Put]
    on encoded keys (their results are dropped by the callers), and the
    package function [GetProto], which answers whether the key was found,
    with the message it decoded and with an error. *)
Class Engine (E : Type) : Type := {
  Merge : list byte -> list byte -> E -> E;
  Put : list byte -> list byte -> E -> E;
  GetProto : E -> list byte -> bool * Value * error
}.

(** The helpers of other packages the statistics code calls: the
    protobuf encoder, the integer encoding that appends to a buffer, the
    key constructors and the two key prefixes. *)
Class Codec : Type := {
  Marshal : Value -> list byte + GoError;
  EncodeInt : list byte -> Z -> list byte;
  MakeKey : list Key -> Key;
  MVCCEncodeKey : Key -> list byte;
  KeyLocalRangeStatPrefix : Key;
  KeyLocalStoreStatPrefix : Key
}.

(** [val.GetInteger()]: 0 when the field is not set. *)
Definition GetInteger (v : Value) : Z :=
  match Integer v with Some i => i | None => 0 end.

(** [&proto.Value{}] *)
Definition emptyValue : Value :=
  {| Bytes := None; Integer := None; Checksum := None;
     ValueTimestamp := None |}.

(** [&proto.Value{Integer: gogoproto.Int64(stat)}] *)
Definition statValue (stat : Z) : Value :=
  {| Bytes := None; Integer := Some stat; Checksum := None;
     ValueTimestamp := None |}.

Section Stat.
Context {E : Type} {EN : Engine E} {CO : Codec}.

(** encodeStatValue constructs a proto.Value using the supplied stat
    increment and then encodes that into a byte slice. Encoding errors
    cause panics. Returns false if stat is equal to 0. *)
Definition encodeStatValue (stat : Z) : Outcome (bool * list byte) :=
  if stat =? 0 then Returned (false, [])
  else match Marshal (statValue stat) with
       | inl data => Returned (true, data)
       | inr _ => Panicked
       end.

(** MakeRangeStatKey returns the key for accessing the named stat for the
    specified range ID. *)
Definition MakeRangeStatKey (rangeID : Z) (stat : Key) : Key :=
  let encRangeID := EncodeInt [] rangeID in
  MakeKey [KeyLocalRangeStatPrefix; encRangeID; stat].

(** MakeStoreStatKey returns the key for accessing the named stat for the
    specified store ID. *)
Definition MakeStoreStatKey (storeID : Z) (stat : Key) : Key :=
  let encStoreID := EncodeInt [] storeID in
  MakeKey [KeyLocalStoreStatPrefix; encStoreID; stat].

(** GetRangeStat fetches the specified stat from the provided engine. If
    the stat could not be found, returns 0. *)
Definition GetRangeStat (e : E) (rangeID : Z) (stat : Key) : Z * error :=
  let '(ok, val, err) :=
    GetProto e (MVCCEncodeKey (MakeRangeStatKey rangeID stat)) in
  if negb (is_nil err) || negb ok then (0, err)
  else (GetInteger val, None).

(** MergeStat flushes the specified stat to merge counters via the
    provided engine for both the affected range and store. *)
Definition MergeStat (e : E) (rangeID storeID : Z) (stat : Key) (statVal : Z)
    : Outcome E :=
  match encodeStatValue statVal with
  | Panicked => Panicked
  | Returned (ok, encStat) =>
      if ok then
        let e1 := if negb (rangeID =? 0)
                  then Merge (MVCCEncodeKey (MakeRangeStatKey rangeID stat))
                         encStat e
                  else e in
        let e2 := if negb (storeID =? 0)
                  then Merge (MVCCEncodeKey (MakeStoreStatKey storeID stat))
                         encStat e1
                  else e1 in
        Returned e2
      else Returned e
  end.

(** SetStat writes the specified stat to counters via the provided engine
    for both the affected range and store. *)
Definition SetStat (e : E) (rangeID storeID : Z) (stat : Key) (statVal : Z)
    : Outcome E :=
  match encodeStatValue statVal with
  | Panicked => Panicked
  | Returned (ok, encStat) =>
      if ok then
        let e1 := if negb (rangeID =? 0)
                  then Put (MVCCEncodeKey (MakeRangeStatKey rangeID stat))
                         encStat e
                  else e in
        let e2 := if negb (storeID =? 0)
                  then Put (MVCCEncodeKey (MakeStoreStatKey storeID stat))
                         encStat e1
                  else e1 in
        Returned e2
      else Returned e
  end.

End Stat.

(** *** Test doubles: an engine that keeps the encoded values in a list,
    the latest first, and a codec for integer values. *)

Definition bytes_eqb (a b : list byte) : bool :=
  if list_eq_dec byte_eq_dec a b then true else false.

Definition MemEngine : Type := list (list byte * list byte).

Fixpoint memLookup (key : list byte) (e : MemEngine) : option (list byte) :=
  match e with
  | [] => None
  | (k, v) :: rest => if bytes_eqb key k then Some v else memLookup key rest
  end.

(** The integer a big-endian byte string stands for. *)
Definition decodeBigEndian (b : list byte) : Z :=
  fold_left (fun acc x => acc * 256 + Z.of_N (Byte.to_N x)) b 0.

#[export] Instance memEngine : Engine MemEngine :=
  {| Merge := fun k v e => (k, v) :: e;
     Put := fun k v e => (k, v) :: e;
     GetProto := fun e k =>
       match memLookup k e with
       | Some enc => (true, statValue (decodeBigEndian enc), None)
       | None => (false, emptyValue, None)
       end |}.

#[export] Instance testCodec : Codec :=
  {| Marshal := fun v => inl (payload_bytes v);
     EncodeInt := fun b i => b ++ EncodeUint64 i;
     MakeKey := fun keys => List.concat keys;
     MVCCEncodeKey := fun k => k;
     KeyLocalRangeStatPrefix := [x72];
     KeyLocalStoreStatPrefix := [x73] |}.

End engine.

(** ** The driver under the current retry options *)
Module driver.
Import proto util client.

Section Driver.
Context {St U : Type} {RT : Runtime St}.

(** [retryOpts := TxnRetryOptions; retryOpts.Tag = opts.Name], where
    [current] is the value the package variable TxnRetryOptions holds when
    RunTransaction copies it (the tests assign to its Backoff). *)
Definition retryOptsWith (current : RetryOptions) (opts : TransactionOptions)
    : RetryOptions :=
  {| Tag := Name opts;
     Backoff := Backoff current;
     MaxBackoff := MaxBackoff current;
     Constant := Constant current;
     MaxAttempts := MaxAttempts current |}.

(** RunTransaction, with the value of TxnRetryOptions at the time of the
    call made explicit. *)
Definition RunTransactionWith (current : RetryOptions) (fuel : nat)
    (kv : KV St U) (opts : TransactionOptions) (retryable : U -> Prog U)
    (w : World St U) : option (Outcome error * World St U) :=
  match dynType (sender kv) with
  | txnSender => Some (Returned (Some (Errorf nestedMessage)), w)
  | singleCallSender =>
      let txnKV := txnKVof kv in
      match RetryWithBackoff sleep fuel (retryOptsWith current opts)
              (epoch txnKV retryable) (begin kv opts w) with
      | None => None
      | Some r => Some (finish txnKV r)
      end
  end.

End Driver.

(** The options of TestKVRunTransactionRetryOnErrors, which sets
    [TxnRetryOptions.Backoff = 1 * time.Millisecond]. *)
Definition testRetryOptions : RetryOptions :=
  {| Tag := EmptyString;
     Backoff := 1 * Millisecond;
     MaxBackoff := 5 * Second;
     Constant := 2;
     MaxAttempts := 0 |}.

End driver.

(** ** The single-call dispatcher *)
Module dispatcher.
Import proto util client.



(** The call with its command identifier set. *)
Definition withCmdID (id : Z * Z) (call : Call) : Call :=
  {| Method := Method call;
     Args := {| Header := {| ReqKey := ReqKey (Header (Args call));
                             proto.User := proto.User (Header (Args call));
                             proto.UserPriority :=
                               proto.UserPriority (Header (Args call));
                             Txn := Txn (Header (Args call));
                             CmdID := id |};
                Body := Body (Args call) |} |}.

Section Dispatcher.
Context {St : Type}.

(** Which response errors are transient transport faults. The spec names
    the class, not its members. *)
Variable transient : GoError -> bool.

Definition isTransient (reply : Response) : bool :=
  match GoErrorOf reply with
  | Some e => transient e
  | None => false
  end.

(** What one send leaves behind: the state of the routing layer, the
    attempts that reached it, the backoff pauses, and the last reply. *)
Record Line : Type := {
  lwire : St;
  attempts : list Call;
  pauses : list Duration;
  answer : option Response
}.

Definition startLine (st : St) : Line :=
  {| lwire := st; attempts := []; pauses := []; answer := None |}.

Definition pause (d : Duration) (l : Line) : Line :=
  {| lwire := lwire l; attempts := attempts l; pauses := pauses l ++ [d];
     answer := answer l |}.

(** Modelled from the spec: one attempt of the dispatcher (4.2, steps 2
    and 3): invoke the routing layer; on a transient transport error back
    off and retry, on any other outcome (success or logical error) return
    control to the caller. *)
Definition attempt (routing : RoutingSend St) (call : Call) (l : Line)
    : Outcome (RetryStatus * error) * Line :=
  let (reply, st') := routing call (lwire l) in
  let l' := {| lwire := st'; attempts := attempts l ++ [call];
               pauses := pauses l; answer := Some reply |} in
  if isTransient reply then (Returned (RetryContinue, None), l')
  else (Returned (RetryBreak, None), l').

(** Modelled from the spec: [singleCallSender.Send] (4.2): the command
    identifier is assigned once per logical call and kept across the
    retries; the attempts are repeated under exponential backoff with the
    given options. [fuel] bounds the attempts the model follows. *)
Definition Send (fuel : nat) (opts : RetryOptions) (routing : RoutingSend St)
    (id : Z * Z) (call : Call) (st : St) : option (Outcome error * Line) :=
  RetryWithBackoff pause fuel opts (attempt routing (withCmdID id call))
    (startLine st).



End Dispatcher.





End dispatcher.

(** * Properties *)

(** ** The value envelope *)
Module checksum_props.
Import proto.

(** The CRC of the model is CRC-32/IEEE: the check value of the standard
    test string. *)
Example ChecksumIEEE_check_value :
  ChecksumIEEE (list_byte_of_string "123456789") = 0xCBF43926.
Proof. vm_compute. reflexivity. Qed.

Example EncodeUint64_one :
  EncodeUint64 1 = [x00; x00; x00; x00; x00; x00; x00; x01].
Proof. vm_compute. reflexivity. Qed.

Example EncodeUint64_minus_one :
  EncodeUint64 (-1) = [xff; xff; xff; xff; xff; xff; xff; xff].
Proof. vm_compute. reflexivity. Qed.

Example EncodeUint64_big_endian :
  EncodeUint64 0x0102030405060708 = [x01; x02; x03; x04; x05; x06; x07; x08].
Proof. vm_compute. reflexivity. Qed.

Lemma EncodeUint64_length (i : Z) : List.length (EncodeUint64 i) = 8%nat.
Proof. reflexivity. Qed.

Lemma payload_bytes_InitChecksum (v : Value) (key : Key) :
  payload_bytes (InitChecksum v key) = payload_bytes v.
Proof. unfold InitChecksum. destruct (Checksum v); reflexivity. Qed.

Lemma Verify_stored (v : Value) (key : Key) (c : Z) :
  Checksum v = Some c ->
  (Verify v key = None <-> ChecksumIEEE (key ++ payload_bytes v) = c) /\
  (Verify v key = Some IntegrityError <-> ChecksumIEEE (key ++ payload_bytes v) <> c).
Proof.
  intros Hc. unfold Verify, computeChecksum. rewrite Hc.
  destruct (Z.eqb_spec c (ChecksumIEEE (key ++ payload_bytes v))) as [E | E].
  - split; split; intros H; try reflexivity; congruence.
  - split; split; intros H; try reflexivity; congruence.
Qed.

(** C8, as amended. On a value that already has a checksum InitChecksum
    changes nothing. A value that has no checksum yet gets the CRC-32/IEEE
    of key followed by payload; verifying it under the same key then
    succeeds. A value or key changed afterwards, with the checksum left as
    it was, fails verification exactly when the CRC of the new key and
    payload differs from the stored one. An integer payload enters the CRC
    as its 8 bytes in big-endian order. *)
Theorem init_checksum_then_verify :
  forall (v : Value) (key : Key),
    (forall c : Z, Checksum v = Some c -> InitChecksum v key = v) /\
    (Checksum v = None ->
     Checksum (InitChecksum v key) = Some (ChecksumIEEE (key ++ payload_bytes v)) /\
     Verify (InitChecksum v key) key = None /\
     (forall (v' : Value) (key' : Key),
         Checksum v' = Checksum (InitChecksum v key) ->
         (Verify v' key' = Some IntegrityError <->
          ChecksumIEEE (key' ++ payload_bytes v') <>
          ChecksumIEEE (key ++ payload_bytes v)) /\
         (Verify v' key' = None <->
          ChecksumIEEE (key' ++ payload_bytes v') =
          ChecksumIEEE (key ++ payload_bytes v))) /\
     (forall i : Z,
         Bytes v = None -> Integer v = Some i ->
         payload_bytes v = EncodeUint64 i /\
         List.length (payload_bytes v) = 8%nat)).
Proof.
  intros v key. split.
  { intros c Hc. unfold InitChecksum. rewrite Hc. reflexivity. }
  intros Hc.
  assert (Hinit : Checksum (InitChecksum v key) =
                  Some (ChecksumIEEE (key ++ payload_bytes v))).
  { unfold InitChecksum. rewrite Hc. reflexivity. }
  split; [exact Hinit|]. split; [|split].
  - apply (Verify_stored _ key _ Hinit).
    rewrite payload_bytes_InitChecksum. reflexivity.
  - intros v' key' Hsame. rewrite Hinit in Hsame.
    destruct (Verify_stored v' key' _ Hsame) as [Hok Hbad].
    split; assumption.
  - intros i Hb Hi. unfold payload_bytes. rewrite Hb, Hi.
    split; reflexivity.
Qed.

Lemma init_checksum_then_verify_witness :
  Verify (InitChecksum (integerValue 7) keyA) keyA = None /\
  Verify (InitChecksum (integerValue 7) keyA) [x6b] = Some IntegrityError /\
  Verify (withBytes [x77] (InitChecksum (bytesValue [x76]) keyA)) keyA
    = Some IntegrityError.
Proof.
  pose proof (proj2 (init_checksum_then_verify (integerValue 7) keyA) eq_refl)
    as (_ & Hok & Hint & _).
  pose proof (proj2 (init_checksum_then_verify (bytesValue [x76]) keyA) eq_refl)
    as (_ & _ & Hbytes & _).
  split; [exact Hok|]. split.
  - apply (Hint (InitChecksum (integerValue 7) keyA) [x6b] eq_refl).
    vm_compute. discriminate.
  - apply (Hbytes (withBytes [x77] (InitChecksum (bytesValue [x76]) keyA))
             keyA eq_refl).
    vm_compute. discriminate.
Defined.

(** C8 as stated fails on three inputs: a value that came with a checksum
    keeps it, so verification right after [InitChecksum] fails; and the CRC
    is the same for two different payloads under one key, and for one
    payload under two different keys, so those changes pass verification. *)
Lemma verify_counterexample :
  Verify (InitChecksum staleValue [x6b]) [x6b] = Some IntegrityError /\
  (payloadA <> payloadB /\
   Verify (withBytes payloadB (InitChecksum (bytesValue payloadA) [x6b])) [x6b]
     = None) /\
  (keyA <> keyB /\
   Verify (InitChecksum (bytesValue [x76]) keyA) keyB = None).
Proof.
  split; [vm_compute; reflexivity|].
  split; (split; [discriminate | vm_compute; reflexivity]).
Qed.

End checksum_props.

(** ** The retry options *)
Module retry_props.
Import proto util client.

Lemma backoff_after_S (opts : RetryOptions) (n : nat) :
  backoff_after opts (S n) = next_backoff opts (backoff_after opts n).
Proof. reflexivity. Qed.

Lemma backoff_after_TxnRetryOptions (n : nat) :
  backoff_after TxnRetryOptions n =
  Z.min (50 * Millisecond * 2 ^ Z.of_nat n) (5 * Second).
Proof.
  induction n as [|n IH].
  - reflexivity.
  - rewrite backoff_after_S, IH. unfold next_backoff.
    rewrite Nat2Z.inj_succ, Z.pow_succ_r by lia.
    change (Constant TxnRetryOptions) with 2.
    change (MaxBackoff TxnRetryOptions) with (5 * Second).
    unfold Second, Millisecond.
    assert (0 < 2 ^ Z.of_nat n) by (apply Z.pow_pos_nonneg; lia).
    lia.
Qed.

(** A result of the loop does not depend on the fuel that was left over. *)
Lemma retry_loop_more_fuel {S : Type} (sleep : Duration -> S -> S)
      (opts : RetryOptions) (fn : S -> Outcome (RetryStatus * error) * S)
      (fuel : nat) :
  forall (extra : nat) (backoff : Duration) (count : Z) (s : S)
         (r : Outcome error * S),
    retry_loop sleep fuel opts fn backoff count s = Some r ->
    retry_loop sleep (fuel + extra) opts fn backoff count s = Some r.
Proof.
  induction fuel as [|fuel IH]; intros extra backoff count s r Hloop.
  - discriminate.
  - cbn [retry_loop Nat.add] in *.
    destruct (fn s) as [[[[| |] err]|] s1]; try exact Hloop.
    + apply IH. exact Hloop.
    + destruct ((0 <? MaxAttempts opts) && (MaxAttempts opts <=? count)).
      * exact Hloop.
      * apply IH. exact Hloop.
Qed.

End retry_props.

(** ** The client *)
Module kv_props.
Import proto util client.

Section Facts.
Context {St U : Type} {RT : Runtime St}.
Implicit Types (kv : KV St U) (w : World St U) (evs : list Event).

(** *** Traces *)

Lemma since_extends w w' evs :
  trace w' = trace w ++ evs -> since w w' = evs.
Proof.
  intros H. unfold since.
  rewrite H, skipn_app, skipn_all, Nat.sub_diag. reflexivity.
Qed.

Lemma EndTransactions_app evs1 evs2 :
  EndTransactions (evs1 ++ evs2) =
  (EndTransactions evs1 + EndTransactions evs2)%nat.
Proof.
  unfold EndTransactions. rewrite filter_app, length_app. reflexivity.
Qed.

Lemma EndTransactions_Sent (call : Call) evs :
  EndTransactions (Sent call :: evs) =
  ((if Method_eqb (Method call) EndTransaction then 1 else 0)
   + EndTransactions evs)%nat.
Proof.
  unfold EndTransactions. simpl.
  destruct (Method_eqb (Method call) EndTransaction); reflexivity.
Qed.

(** *** The header defaults *)

Lemma decorate_spec kv (h : RequestHeader) :
  proto.User (decorate kv h) =
    (if String.eqb (proto.User h) EmptyString then User kv else proto.User h) /\
  proto.UserPriority (decorate kv h) =
    match proto.UserPriority h with
    | Some p => Some p
    | None => defaultPriority kv
    end /\
  ReqKey (decorate kv h) = ReqKey h /\
  Txn (decorate kv h) = Txn h /\
  CmdID (decorate kv h) = CmdID h.
Proof.
  unfold decorate, defaultPriority.
  destruct (String.eqb (proto.User h) EmptyString);
    destruct h as [k u [p|] t c]; simpl;
    destruct (UserPriority kv =? 0); simpl; repeat split; reflexivity.
Qed.

Lemma decorate_plain kv (h : RequestHeader) :
  proto.User h = EmptyString ->
  proto.UserPriority h = None ->
  proto.User (decorate kv h) = User kv /\
  proto.UserPriority (decorate kv h) = defaultPriority kv.
Proof.
  intros Hu Hp. destruct (decorate_spec kv h) as (Du & Dp & _).
  rewrite Du, Dp, Hu, Hp. split; reflexivity.
Qed.

(** *** Calls through the transactional handle *)

Lemma KV_Call_txn kv (method : proto.Method) (args : Request) w :
  let call := wireCall kv method args w in
  let reply := fst (Sender kv call (wire w)) in
  exists w',
    KV_Call (txnKVof kv) method args w = ((GoErrorOf reply, reply), w') /\
    trace w' = trace w ++ [Sent call] /\
    txnEnd w' = txnEnd w || Method_eqb method EndTransaction /\
    captured w' = captured w.
Proof.
  intros call reply. subst call reply.
  unfold KV_Call, txnKVof, wireCall; simpl. unfold txnSender_Send.
  change (decorate _ (Header args)) with (decorate kv (Header args)).
  match goal with
  | |- context [Sender kv ?c ?st] => destruct (Sender kv c st) as [reply st']
  end.
  simpl.
  destruct (RespTxn (RHeader reply)); destruct (Method_eqb method EndTransaction);
    simpl; eexists; (split; [reflexivity|]); simpl;
    rewrite ?orb_true_r, ?orb_false_r; repeat split; reflexivity.
Qed.

Lemma wireCall_Method kv method args w :
  Method (wireCall kv method args w) = method.
Proof. reflexivity. Qed.

Lemma wireCall_Body kv method args w :
  Body (Args (wireCall kv method args w)) = Body args.
Proof. reflexivity. Qed.

Lemma wireCall_carries kv method args w :
  proto.User (Header args) = EmptyString ->
  proto.UserPriority (Header args) = None ->
  carries (User kv) (defaultPriority kv) (Sent (wireCall kv method args w)).
Proof.
  intros Hu Hp. simpl. apply decorate_plain; assumption.
Qed.

(** The closure's run: the events it adds are its calls; [txnEnd] is set
    exactly when one of them is an EndTransaction. *)
Lemma run_txn kv (p : Prog U) :
  forall w (o : Outcome error) w',
    run (txnKVof kv) p w = (o, w') ->
    exists evs,
      trace w' = trace w ++ evs /\
      txnEnd w' = txnEnd w || negb (EndTransactions evs =? 0)%nat /\
      (plain p -> Forall (carries (User kv) (defaultPriority kv)) evs).
Proof.
  induction p as [u err | u | method args k IH]; intros w o w' Hrun.
  - inversion Hrun; subst. exists []. simpl.
    rewrite app_nil_r, orb_false_r. repeat split. intros _. constructor.
  - inversion Hrun; subst. exists []. simpl.
    rewrite app_nil_r, orb_false_r. repeat split. intros _. constructor.
  - simpl in Hrun.
    destruct (KV_Call_txn kv method args w) as (w1 & Hcall & Htr & Hend & _).
    rewrite Hcall in Hrun.
    destruct (IH _ _ _ _ Hrun) as (evs & Htr' & Hend' & Hplain).
    exists (Sent (wireCall kv method args w) :: evs). split; [|split].
    + rewrite Htr', Htr, <- app_assoc. reflexivity.
    + rewrite Hend', Hend, EndTransactions_Sent, wireCall_Method.
      destruct (Method_eqb method EndTransaction); simpl;
        rewrite ?orb_true_r, ?orb_false_r; reflexivity.
    + intros Hp. inversion Hp as [| | m a k' Hu Hpr Hk]; subst.
      constructor.
      * apply wireCall_carries; assumption.
      * apply Hplain, Hk.
Qed.

(** *** The driver loop *)

(** C1. Whatever the state of the loop, an epoch whose result error is
    [err] makes the loop go on as follows: on
    ReadWithinUncertaintyIntervalError and TransactionRetryError the next
    epoch starts at once from the state the epoch left (nothing is slept,
    the backoff is back at its initial value); on TransactionAbortedError
    and TransactionPushError the loop sleeps for the current backoff and
    then starts the next epoch; on any other error, or nil, the loop
    exits with that error. *)
Theorem dispatch_of_result_error :
  forall kv (retryable : U -> Prog U) (opts : TransactionOptions)
         (fuel : nat) (backoff : Duration) (count : Z) w
         (err : error) w',
    epoch_err kv retryable w = (Returned err, w') ->
    retry_loop sleep (S fuel) (retryOptsFor opts) (epoch kv retryable)
      backoff count w =
    match err with
    | Some ReadWithinUncertaintyIntervalError
    | Some TransactionRetryError =>
        retry_loop sleep fuel (retryOptsFor opts) (epoch kv retryable)
          (Backoff TxnRetryOptions) 1 w'
    | Some TransactionAbortedError
    | Some TransactionPushError =>
        retry_loop sleep fuel (retryOptsFor opts) (epoch kv retryable)
          (next_backoff TxnRetryOptions backoff) (count + 1)
          (record (Slept backoff) w')
    | _ => Some (Returned err, w')
    end.
Proof.
  intros kv retryable opts fuel backoff count w err w' Hepoch.
  cbn [retry_loop]. unfold epoch. rewrite Hepoch.
  destruct err as [[]|]; reflexivity.
Qed.

(** C4. RunTransaction on a handle whose sender is a transactional
    sender returns the nested-transaction error at once and leaves the
    world as it was: nothing is sent. *)
Theorem nested_transaction_refused :
  forall (fuel : nat) kv (opts : TransactionOptions)
         (retryable : U -> Prog U) w,
    dynType (sender kv) = txnSender ->
    RunTransaction fuel kv opts retryable w =
    Some (Returned (Some (Errorf
            "cannot invoke RunTransaction on an already-transactional client")),
          w).
Proof.
  intros fuel kv opts retryable w Htxn.
  unfold RunTransaction. rewrite Htxn. reflexivity.
Qed.

(** C2, as amended. In an epoch whose closure returns, the closure has
    ended the transaction exactly when [txnEnd] is set afterwards. If the
    closure returned no error and did not end the transaction, the driver
    issues one EndTransaction with commit = true, whose error is the
    result error, and that is the only EndTransaction of the epoch. In
    every other case (the closure returned an error, or it ended the
    transaction itself) the driver issues nothing in the epoch, so the
    epoch holds the closure's own EndTransaction calls and no more. *)
Theorem EndTransaction_per_epoch :
  forall kv (retryable : U -> Prog U) w (err : error) w1,
    run (txnKVof kv) (retryable (captured w)) (set_txnEnd false w)
      = (Returned err, w1) ->
    let n := EndTransactions (since w w1) in
    txnEnd w1 = negb (n =? 0)%nat /\
    if is_nil err && (n =? 0)%nat then
      let call := wireCall kv EndTransaction (endTransactionArgs true) w1 in
      let reply := fst (Sender kv call (wire w1)) in
      Body (Args call) = EndTransactionRequest true /\
      exists w2,
        epoch_err (txnKVof kv) retryable w = (Returned (GoErrorOf reply), w2) /\
        since w1 w2 = [Sent call] /\
        EndTransactions (since w w2) = 1%nat
    else
      epoch_err (txnKVof kv) retryable w = (Returned err, w1).
Proof.
  intros kv retryable w err w1 Hrun n.
  destruct (run_txn _ _ _ _ _ Hrun) as (evs & Htr & Hend & _).
  simpl in Htr, Hend.
  assert (Hn : n = EndTransactions evs).
  { subst n. rewrite (since_extends _ _ _ Htr). reflexivity. }
  rewrite Hn. split; [exact Hend|].
  unfold epoch_err. simpl captured. rewrite Hrun, Hend.
  destruct (is_nil err) eqn:Hnil;
    destruct (EndTransactions evs =? 0)%nat eqn:Hzero; simpl;
    try reflexivity.
  destruct (KV_Call_txn kv EndTransaction (endTransactionArgs true) w1)
    as (w2 & Hcall & Htr2 & _).
  split; [reflexivity|]. exists w2. rewrite Hcall.
  split; [reflexivity|]. split.
  - apply since_extends. exact Htr2.
  - rewrite (since_extends w w2 (evs ++ [Sent (wireCall kv EndTransaction
                                   (endTransactionArgs true) w1)])).
    + rewrite EndTransactions_app, EndTransactions_Sent, wireCall_Method.
      apply Nat.eqb_eq in Hzero. rewrite Hzero. reflexivity.
    + rewrite Htr2, Htr, <- app_assoc. reflexivity.
Qed.

(** *** After the loop *)

Lemma finish_abort kv (e : GoError) w1 :
  txnEnd w1 = false ->
  let call := wireCall kv EndTransaction (endTransactionArgs false) w1 in
  let reply := fst (Sender kv call (wire w1)) in
  exists w3,
    finish (txnKVof kv) (Returned (Some e), w1) = (Returned (Some e), w3) /\
    since w1 w3 =
      Sent call ::
      (if is_nil (GoErrorOf reply) then [] else [Logged abortLogFormat])
      ++ [Closed].
Proof.
  intros Hopen. cbv zeta. unfold finish. simpl. rewrite Hopen. simpl.
  destruct (KV_Call_txn kv EndTransaction (endTransactionArgs false) w1)
    as (w2 & Hcall & Htr & _).
  rewrite Hcall.
  destruct (is_nil (GoErrorOf (fst (Sender kv _ _))));
    eexists; (split; [reflexivity|]);
    apply since_extends; simpl; rewrite Htr, <- ?app_assoc; reflexivity.
Qed.

(** C3. If the retry loop exits with nil, RunTransaction returns nil. If
    it exits with an error while the transaction has not been ended,
    RunTransaction sends one EndTransaction with commit = false, logs the
    error of that call if there is one, closes the handle and returns the
    error of the loop, whatever the abort call answered. *)
Theorem abort_on_error_nil_on_commit :
  forall (fuel : nat) kv (opts : TransactionOptions)
         (retryable : U -> Prog U) w (err : error) w1,
    dynType (sender kv) = singleCallSender ->
    RetryWithBackoff sleep fuel (retryOptsFor opts)
      (epoch (txnKVof kv) retryable) (begin kv opts w)
      = Some (Returned err, w1) ->
    match err with
    | None =>
        RunTransaction fuel kv opts retryable w
        = Some (Returned None, record Closed w1)
    | Some e =>
        txnEnd w1 = false ->
        let call := wireCall kv EndTransaction (endTransactionArgs false) w1 in
        let reply := fst (Sender kv call (wire w1)) in
        Method call = EndTransaction /\
        Body (Args call) = EndTransactionRequest false /\
        exists w3,
          RunTransaction fuel kv opts retryable w
          = Some (Returned (Some e), w3) /\
          since w1 w3 =
            Sent call ::
            (if is_nil (GoErrorOf reply) then []
             else [Logged abortLogFormat])
            ++ [Closed]
    end.
Proof.
  intros fuel kv opts retryable w err w1 Hkind Hloop.
  unfold RunTransaction. rewrite Hkind, Hloop.
  destruct err as [e|].
  - intros Hopen. cbv zeta. split; [reflexivity|]. split; [reflexivity|].
    destruct (finish_abort kv e w1 Hopen) as (w3 & Hfin & Hsince).
    exists w3. split; [f_equal; exact Hfin | exact Hsince].
  - reflexivity.
Qed.

(** The other exit: when the loop leaves an error and the transaction
    has been ended (as after a failed commit), nothing is sent and
    RunTransaction returns nil. *)
Remark error_after_end_returns_nil :
  forall (fuel : nat) kv (opts : TransactionOptions)
         (retryable : U -> Prog U) w (e : GoError) w1,
    dynType (sender kv) = singleCallSender ->
    RetryWithBackoff sleep fuel (retryOptsFor opts)
      (epoch (txnKVof kv) retryable) (begin kv opts w)
      = Some (Returned (Some e), w1) ->
    txnEnd w1 = true ->
    RunTransaction fuel kv opts retryable w
    = Some (Returned None, record Closed w1).
Proof.
  intros fuel kv opts retryable w e w1 Hkind Hloop Hended.
  unfold RunTransaction. rewrite Hkind, Hloop.
  unfold finish. simpl. rewrite Hended. reflexivity.
Qed.

Lemma epoch_panics kv (retryable : U -> Prog U) w w1 :
  run (txnKVof kv) (retryable (captured w)) (set_txnEnd false w)
    = (Panicked, w1) ->
  epoch (txnKVof kv) retryable w = (Panicked, w1).
Proof.
  intros Hrun. unfold epoch, epoch_err. simpl captured.
  rewrite Hrun. reflexivity.
Qed.

(** C5, as amended. If RunTransaction on a non-transactional handle
    returns an error, the loop had exited with that error while the
    transaction was not ended, and the last call sent before returning is
    an EndTransaction with commit = false. This does not extend to a
    panic: when the closure panics in an epoch the loop unwinds with it,
    and RunTransaction only closes the handle, sending nothing. *)
Theorem abort_precedes_error_return :
  forall (fuel : nat) kv (opts : TransactionOptions)
         (retryable : U -> Prog U) w,
    dynType (sender kv) = singleCallSender ->
    (forall (e : GoError) w',
        RunTransaction fuel kv opts retryable w
        = Some (Returned (Some e), w') ->
        exists w1 call tail,
          RetryWithBackoff sleep fuel (retryOptsFor opts)
            (epoch (txnKVof kv) retryable) (begin kv opts w)
          = Some (Returned (Some e), w1) /\
          txnEnd w1 = false /\
          since w1 w' = Sent call :: tail /\
          Method call = EndTransaction /\
          Body (Args call) = EndTransactionRequest false /\
          (tail = [Closed] \/ tail = [Logged abortLogFormat; Closed])) /\
    (forall w1,
        RetryWithBackoff sleep fuel (retryOptsFor opts)
          (epoch (txnKVof kv) retryable) (begin kv opts w)
        = Some (Panicked, w1) ->
        RunTransaction fuel kv opts retryable w
        = Some (Panicked, record Closed w1)) /\
    (forall (backoff : Duration) (count : Z) w0 w1,
        run (txnKVof kv) (retryable (captured w0)) (set_txnEnd false w0)
        = (Panicked, w1) ->
        retry_loop sleep (S fuel) (retryOptsFor opts)
          (epoch (txnKVof kv) retryable) backoff count w0
        = Some (Panicked, w1)).
Proof.
  intros fuel kv opts retryable w Hkind. split; [|split].
  - intros e w' Hret. unfold RunTransaction in Hret. rewrite Hkind in Hret.
    destruct (RetryWithBackoff sleep fuel (retryOptsFor opts)
                (epoch (txnKVof kv) retryable) (begin kv opts w))
      as [[[[e'|]|] w1]|] eqn:Hloop; try discriminate.
    destruct (txnEnd w1) eqn:Hopen.
    { unfold finish in Hret. simpl in Hret. rewrite Hopen in Hret.
      discriminate. }
    destruct (finish_abort kv e' w1 Hopen) as (w3 & Hfin & Hsince).
    assert (Heq : Some (Returned (Some e'), w3)
                  = Some (Returned (Some e), w'))
      by (rewrite <- Hret; f_equal; symmetry; exact Hfin).
    inversion Heq; subst e' w3.
    eexists w1, _, _. split; [reflexivity|]. split; [exact Hopen|].
    split; [exact Hsince|]. split; [reflexivity|].
    split; [reflexivity|].
    destruct (is_nil (GoErrorOf _)); [left | right]; reflexivity.
  - intros w1 Hloop. unfold RunTransaction. rewrite Hkind, Hloop.
    reflexivity.
  - intros backoff count w0 w1 Hrun. cbn [retry_loop].
    rewrite (epoch_panics _ _ _ _ Hrun). reflexivity.
Qed.

(** *** User and user priority *)

Lemma epoch_carries kv (retryable : U -> Prog U) :
  (forall u, plain (retryable u)) ->
  forall w (o : Outcome (RetryStatus * error)) w',
    epoch (txnKVof kv) retryable w = (o, w') ->
    exists evs,
      trace w' = trace w ++ evs /\
      Forall (carries (User kv) (defaultPriority kv)) evs.
Proof.
  intros Hplain w o w'. unfold epoch, epoch_err.
  destruct (run (txnKVof kv) (retryable (captured (set_txnEnd false w)))
              (set_txnEnd false w)) as [[err|] w1] eqn:Hrun.
  - destruct (run_txn _ _ _ _ _ Hrun) as (evs & Htr & _ & Hcar).
    simpl in Htr. specialize (Hcar (Hplain _)).
    destruct (is_nil err && negb (txnEnd w1)).
    + destruct (KV_Call_txn kv EndTransaction (endTransactionArgs true) w1)
        as (w2 & Hcall & Htr2 & _).
      rewrite Hcall. intros Heq. inversion Heq; subst.
      exists (evs ++ [Sent (wireCall kv EndTransaction
                             (endTransactionArgs true) w1)]).
      split.
      * rewrite Htr2, Htr, <- app_assoc. reflexivity.
      * apply Forall_app. split; [exact Hcar|].
        constructor; [|constructor].
        apply wireCall_carries; reflexivity.
    + intros Heq. inversion Heq; subst. exists evs. split; assumption.
  - destruct (run_txn _ _ _ _ _ Hrun) as (evs & Htr & _ & Hcar).
    simpl in Htr. intros Heq. inversion Heq; subst.
    exists evs. split; [exact Htr | apply Hcar, Hplain].
Qed.

Lemma loop_carries kv (retryable : U -> Prog U) (ropts : RetryOptions) :
  (forall u, plain (retryable u)) ->
  forall (fuel : nat) (backoff : Duration) (count : Z) w
         (o : Outcome error) w',
    retry_loop sleep fuel ropts (epoch (txnKVof kv) retryable)
      backoff count w = Some (o, w') ->
    exists evs,
      trace w' = trace w ++ evs /\
      Forall (carries (User kv) (defaultPriority kv)) evs.
Proof.
  intros Hplain fuel.
  induction fuel as [|fuel IH]; intros backoff count w o w' Hloop.
  - discriminate.
  - cbn [retry_loop] in Hloop.
    destruct (epoch (txnKVof kv) retryable w) as [[[status err]|] w1] eqn:He;
      destruct (epoch_carries kv retryable Hplain _ _ _ He)
        as (evs & Htr & Hcar).
    + destruct status.
      * inversion Hloop; subst. exists evs. split; assumption.
      * destruct (IH _ _ _ _ _ Hloop) as (evs' & Htr' & Hcar').
        exists (evs ++ evs'). split.
        -- rewrite Htr', Htr, <- app_assoc. reflexivity.
        -- apply Forall_app. split; assumption.
      * destruct ((0 <? MaxAttempts ropts) && (MaxAttempts ropts <=? count)).
        -- inversion Hloop; subst. exists evs. split; assumption.
        -- destruct (IH _ _ _ _ _ Hloop) as (evs' & Htr' & Hcar').
           exists (evs ++ Slept backoff :: evs'). split.
           ++ rewrite Htr'. simpl. rewrite Htr, <- !app_assoc. reflexivity.
           ++ apply Forall_app. split; [exact Hcar|].
              constructor; [exact I | exact Hcar'].
    + inversion Hloop; subst. exists evs. split; assumption.
Qed.

Lemma finish_carries kv (r : Outcome error * World St U)
      (o : Outcome error) w' :
  finish (txnKVof kv) r = (o, w') ->
  exists evs,
    trace w' = trace (snd r) ++ evs /\
    Forall (carries (User kv) (defaultPriority kv)) evs.
Proof.
  destruct r as [[err|] w1]; unfold finish; simpl.
  - destruct (negb (is_nil err) && negb (txnEnd w1)).
    + destruct (KV_Call_txn kv EndTransaction (endTransactionArgs false) w1)
        as (w2 & Hcall & Htr & _).
      rewrite Hcall.
      assert (Hc : carries (User kv) (defaultPriority kv)
                     (Sent (wireCall kv EndTransaction
                              (endTransactionArgs false) w1)))
        by (apply wireCall_carries; reflexivity).
      destruct (is_nil (GoErrorOf _)); intros Heq; inversion Heq; subst;
        simpl.
      * exists [Sent (wireCall kv EndTransaction (endTransactionArgs false) w1);
                Closed].
        split; [rewrite Htr, <- app_assoc; reflexivity|].
        constructor; [exact Hc|]. repeat constructor.
      * exists [Sent (wireCall kv EndTransaction (endTransactionArgs false) w1);
                Logged abortLogFormat; Closed].
        split; [rewrite Htr, <- !app_assoc; reflexivity|].
        constructor; [exact Hc|]. repeat constructor.
    + intros Heq. inversion Heq; subst. simpl.
      eexists. split; [reflexivity|]. repeat constructor.
  - intros Heq. inversion Heq; subst. simpl.
    eexists. split; [reflexivity|]. repeat constructor.
Qed.

(** C9, as amended. A call through a handle reaches the sender with the
    handle's user if the request had none, and with the handle's user
    priority if the request had none and the handle's is not zero; a
    request that had its own keeps it, and with a zero handle priority
    the field stays unset. The transactional handle of RunTransaction
    has the user and user priority of its parent, so that every request
    sent during RunTransaction, by a closure that leaves both unset or by
    the driver, carries the parent's user and (non-zero) user priority. *)
Theorem user_and_priority_propagate :
  forall kv,
    (forall (method : proto.Method) (args : Request) w,
        exists call,
          KV_Call kv method args w =
            (let (reply, w') := Send (sender kv) call w in
             ((GoErrorOf reply, reply), w')) /\
          Method call = method /\
          Body (Args call) = Body args /\
          proto.User (Header (Args call)) =
            (if String.eqb (proto.User (Header args)) EmptyString
             then User kv else proto.User (Header args)) /\
          proto.UserPriority (Header (Args call)) =
            match proto.UserPriority (Header args) with
            | Some p => Some p
            | None => if UserPriority kv =? 0 then None
                      else Some (UserPriority kv)
            end) /\
    User (txnKVof kv) = User kv /\
    UserPriority (txnKVof kv) = UserPriority kv /\
    (forall (fuel : nat) (opts : TransactionOptions)
            (retryable : U -> Prog U) w (o : Outcome error) w',
        dynType (sender kv) = singleCallSender ->
        (forall u, plain (retryable u)) ->
        RunTransaction fuel kv opts retryable w = Some (o, w') ->
        Forall (carries (User kv)
                  (if UserPriority kv =? 0 then None
                   else Some (UserPriority kv)))
               (since w w')).
Proof.
  intros kv. split; [|split; [reflexivity|split; [reflexivity|]]].
  - intros method args w.
    destruct (decorate_spec kv (Header args)) as (Du & Dp & _).
    eexists. split; [reflexivity|]. simpl.
    split; [reflexivity|]. split; [reflexivity|].
    split; [exact Du | exact Dp].
  - intros fuel opts retryable w o w' Hkind Hplain Hrun.
    unfold RunTransaction in Hrun. rewrite Hkind in Hrun.
    destruct (RetryWithBackoff sleep fuel (retryOptsFor opts)
                (epoch (txnKVof kv) retryable) (begin kv opts w))
      as [[o1 w1]|] eqn:Hloop; [|discriminate].
    assert (Hfin : finish (txnKVof kv) (o1, w1) = (o, w')) by congruence.
    destruct (loop_carries kv retryable _ Hplain _ _ _ _ _ _ Hloop)
      as (evs1 & Htr1 & Hcar1).
    destruct (finish_carries kv _ _ _ Hfin) as (evs2 & Htr2 & Hcar2).
    simpl in Htr1, Htr2.
    rewrite (since_extends w w' (evs1 ++ evs2)).
    + apply Forall_app. split; assumption.
    + rewrite Htr2, Htr1, <- app_assoc. reflexivity.
Qed.

(** *** Reads *)

(** C6. When the Get call returns no error and the reply holds no
    value, GetI and GetProto return (false, zero timestamp, nil). *)
Theorem absent_key_is_not_an_error :
  forall (decode : list byte -> error) kv (key : Key) w
         (reply : Response) w',
    KV_Call kv Get (getArgs key) w = ((None, reply), w') ->
    RValue reply = None ->
    GetI decode kv key w = (Returned (false, zeroTimestamp, None), w') /\
    GetProto decode kv key w = (Returned (false, zeroTimestamp, None), w').
Proof.
  intros decode kv key w reply w' Hcall Hval.
  unfold GetI, GetProto, getDecoded, getInternal.
  rewrite Hcall, Hval. split; reflexivity.
Qed.

(** C7. When the value in the Get reply has its Integer field set, GetI
    and GetProto return (false, zero timestamp, err) with err not nil:
    the error of the call if it failed, else the error of the checksum
    verification if that failed, else the unexpected-integer error. *)
Theorem integer_value_is_an_error_for_byte_accessors :
  forall (decode : list byte -> error) kv (key : Key) w
         (err : error) (reply : Response) w' (v : Value) (i : Z),
    KV_Call kv Get (getArgs key) w = ((err, reply), w') ->
    RValue reply = Some v ->
    Integer v = Some i ->
    let e := match err, Verify v key with
             | Some e, _ => e
             | None, Some e => e
             | None, None => Errorf "unexpected integer value at key %q: %+v"
             end in
    GetI decode kv key w = (Returned (false, zeroTimestamp, Some e), w') /\
    GetProto decode kv key w = (Returned (false, zeroTimestamp, Some e), w').
Proof.
  intros decode kv key w err reply w' v i Hcall Hval Hint e. subst e.
  unfold GetI, GetProto, getDecoded, getInternal.
  rewrite Hcall. destruct err as [e|].
  - split; reflexivity.
  - rewrite Hval. destruct (Verify v key) as [e|].
    + split; reflexivity.
    + rewrite Hint. split; reflexivity.
Qed.

End Facts.

(** *** The theorems at the test doubles *)

Lemma dispatch_of_result_error_witness :
  let kv := txnKVof (testKV "foo" 101
                       (newTestSender (failFirstPut TransactionAbortedError))) in
  let w := testWorld O in
  let w' := snd (epoch_err kv putOnce w) in
  retry_loop sleep 2 (retryOptsFor testOpts) (epoch kv putOnce)
    (50 * Millisecond) 1 w
  = retry_loop sleep 1 (retryOptsFor testOpts) (epoch kv putOnce)
      (100 * Millisecond) 2 (record (Slept (50 * Millisecond)) w').
Proof.
  intros kv w w'.
  apply (dispatch_of_result_error kv putOnce testOpts 1 (50 * Millisecond) 1 w
           (Some TransactionAbortedError) w').
  reflexivity.
Defined.

Lemma EndTransaction_per_epoch_witness :
  exists w2,
    epoch_err (txnKVof testClient) emptyClosure (testWorld O)
      = (Returned None, w2) /\
    EndTransactions (since (testWorld O) w2) = 1%nat.
Proof.
  destruct (EndTransaction_per_epoch testClient emptyClosure (testWorld O)
              None (set_captured 1%nat (testWorld O)) eq_refl)
    as (_ & _ & w2 & Hepoch & _ & Hone).
  exists w2. split; [exact Hepoch | exact Hone].
Defined.

Lemma abort_on_error_nil_on_commit_witness :
  exists w3,
    RunTransaction 1 testClient testOpts failingClosure (testWorld O)
      = Some (Returned (Some (ErrorsNew "foo")), w3) /\
    sentCalls
      (since (set_captured 1%nat (begin testClient testOpts (testWorld O))) w3)
    = [wireCall testClient EndTransaction (endTransactionArgs false)
         (begin testClient testOpts (testWorld O))].
Proof.
  destruct (abort_on_error_nil_on_commit 1 testClient testOpts failingClosure
              (testWorld O) (Some (ErrorsNew "foo"))
              (set_captured 1%nat (begin testClient testOpts (testWorld O)))
              eq_refl eq_refl eq_refl)
    as (_ & _ & w3 & Hrun & Hsince).
  exists w3. split; [exact Hrun|].
  rewrite Hsince. reflexivity.
Defined.

Lemma nested_transaction_refused_witness :
  RunTransaction 1 (txnKVof testClient) testOpts emptyClosure (testWorld O)
  = Some (Returned (Some (Errorf
            "cannot invoke RunTransaction on an already-transactional client")),
          testWorld O).
Proof.
  apply (nested_transaction_refused 1 (txnKVof testClient) testOpts
           emptyClosure (testWorld O)).
  reflexivity.
Defined.

Lemma abort_precedes_error_return_witness :
  exists w' w1 call tail,
    RunTransaction 1 testClient testOpts failingClosure (testWorld O)
      = Some (Returned (Some (ErrorsNew "foo")), w') /\
    since w1 w' = Sent call :: tail /\
    Method call = EndTransaction /\
    Body (Args call) = EndTransactionRequest false.
Proof.
  destruct (abort_precedes_error_return 1 testClient testOpts failingClosure
              (testWorld O) eq_refl) as (Herr & _ & _).
  eexists.
  destruct (Herr (ErrorsNew "foo") _ eq_refl)
    as (w1 & call & tail & _ & _ & Hsince & Hm & Hb & _).
  exists w1, call, tail.
  split; [reflexivity|]. split; [exact Hsince|]. split; [exact Hm | exact Hb].
Defined.

Lemma absent_key_is_not_an_error_witness :
  let w' := snd (KV_Call testClient Get (getArgs [x61]) (testWorld O)) in
  GetI (fun _ => None) testClient [x61] (testWorld O)
    = (Returned (false, zeroTimestamp, None), w') /\
  GetProto (fun _ => None) testClient [x61] (testWorld O)
    = (Returned (false, zeroTimestamp, None), w').
Proof.
  intros w'.
  apply (absent_key_is_not_an_error (fun _ => None) testClient [x61]
           (testWorld O) okReply w'); reflexivity.
Defined.

Lemma integer_value_is_an_error_for_byte_accessors_witness :
  let kv : KV nat nat :=
    testKV "foo" 101 (newTestSender (fun _ _ => valueReply (integerValue 7))) in
  let w' := snd (KV_Call kv Get (getArgs [x61]) (testWorld O)) in
  GetI (fun _ => None) kv [x61] (testWorld O)
    = (Returned (false, zeroTimestamp,
                 Some (Errorf "unexpected integer value at key %q: %+v")), w') /\
  GetProto (fun _ => None) kv [x61] (testWorld O)
    = (Returned (false, zeroTimestamp,
                 Some (Errorf "unexpected integer value at key %q: %+v")), w').
Proof.
  intros kv w'.
  apply (integer_value_is_an_error_for_byte_accessors (fun _ => None) kv [x61]
           (testWorld O) None (valueReply (integerValue 7)) w'
           (integerValue 7) 7); reflexivity.
Defined.

Lemma plain_putOnce (u : nat) : plain (putOnce u).
Proof.
  unfold putOnce. constructor; [reflexivity | reflexivity |].
  intros reply. constructor.
Qed.

Lemma user_and_priority_propagate_witness :
  let kv : KV nat nat :=
    testKV "foo" 101 (newTestSender (failFirstPut TransactionPushError)) in
  exists w',
    RunTransaction 2 kv testOpts putOnce (testWorld O)
      = Some (Returned None, w') /\
    Forall (carries "foo" (Some 101)) (since (testWorld O) w') /\
    List.length (sentCalls (since (testWorld O) w')) = 3%nat.
Proof.
  intros kv.
  destruct (user_and_priority_propagate kv) as (_ & _ & _ & Hrun).
  eexists. split; [reflexivity|]. split.
  - apply (Hrun 2%nat testOpts putOnce (testWorld O) (Returned None) _
             eq_refl plain_putOnce eq_refl).
  - reflexivity.
Defined.

(** *** The scenarios of [client/kv_test.go] *)

(** TestKVCommitTransaction: one EndTransaction, with commit true. *)
Example commit_on_empty_closure :
  option_map (fun r => (fst r, sentSummary (trace (snd r))))
    (RunTransaction 1 testClient testOpts emptyClosure (testWorld O))
  = Some (Returned None, [(EndTransaction, EndTransactionRequest true)]).
Proof. reflexivity. Qed.

(** TestKVCommitTransactionOnce: the closure ends the transaction, and
    it is not ended a second time. *)
Example commit_once :
  option_map (fun r => (fst r, sentSummary (trace (snd r))))
    (RunTransaction 1 testClient testOpts endingClosure (testWorld O))
  = Some (Returned None, [(EndTransaction, EndTransactionRequest true)]).
Proof. reflexivity. Qed.

(** TestKVAbortTransaction: one EndTransaction, with commit false, and
    the closure's error comes back. *)
Example abort_on_closure_error :
  option_map (fun r => (fst r, sentSummary (trace (snd r))))
    (RunTransaction 1 testClient testOpts failingClosure (testWorld O))
  = Some (Returned (Some (ErrorsNew "foo")),
          [(EndTransaction, EndTransactionRequest false)]).
Proof. reflexivity. Qed.

(** TestKVRunTransactionRetryOnErrors: the four errors that are retried
    give two Puts and success; the others give one Put and the error. *)
Example retry_on_errors :
  map (fun e =>
         option_map
           (fun r => (fst r,
                      List.length
                        (filter (fun c => Method_eqb (Method c) Put)
                           (sentCalls (trace (snd r))))))
           (RunTransaction 2 (testKV "foo" 101 (newTestSender (failFirstPut e)))
              testOpts putOnce (testWorld O)))
      [ReadWithinUncertaintyIntervalError; TransactionAbortedError;
       TransactionPushError; TransactionRetryError;
       GenericError ""; RangeNotFoundError; RangeKeyMismatchError;
       TransactionStatusError]
  = [Some (Returned None, 2%nat); Some (Returned None, 2%nat);
     Some (Returned None, 2%nat); Some (Returned None, 2%nat);
     Some (Returned (Some (GenericError "")), 1%nat);
     Some (Returned (Some RangeNotFoundError), 1%nat);
     Some (Returned (Some RangeKeyMismatchError), 1%nat);
     Some (Returned (Some TransactionStatusError), 1%nat)].
Proof. reflexivity. Qed.

(** *** Where the specification as stated fails *)

(** C2 as stated fails: an epoch whose closure returns a retry error
    sends no EndTransaction, and the run of two epochs it belongs to sends
    one EndTransaction in all. *)
Lemma retried_epoch_counterexample :
  EndTransactions
    (since (testWorld O)
       (snd (epoch_err (txnKVof testClient) retryOnceClosure (testWorld O))))
    = 0%nat /\
  option_map
    (fun r => (fst r, captured (snd r),
               EndTransactions (since (testWorld O) (snd r))))
    (RunTransaction 2 testClient testOpts retryOnceClosure (testWorld O))
  = Some (Returned None, 2%nat, 1%nat).
Proof. split; reflexivity. Qed.

(** C5 as stated fails: when the closure panics the transaction is still
    open, and RunTransaction unwinds having sent nothing; the trace holds
    the closing of the handle only. *)
Lemma panic_counterexample :
  option_map (fun r => (fst r, txnEnd (snd r), trace (snd r)))
    (RunTransaction 1 testClient testOpts panickingClosure (testWorld O))
  = Some (Panicked, false, [Closed]).
Proof. reflexivity. Qed.

(** C9 as stated fails: through a handle with user "foo" and user
    priority 0, a request without user priority is sent with user "foo"
    and still without user priority. *)
Lemma zero_priority_counterexample :
  let kv : KV nat nat := testKV "foo" 0 okSender in
  let w' := snd (KV_Call kv Get (getArgs [x61]) (testWorld O)) in
  map (fun c => (proto.User (Header (Args c)),
                 proto.UserPriority (Header (Args c))))
      (sentCalls (trace w'))
    = [("foo"%string, None)] /\
  ~ Forall (carries "foo" (Some (UserPriority kv))) (trace w').
Proof.
  intros kv w'. split; [reflexivity|].
  intros H. apply Forall_inv in H. destruct H as [_ Hprio].
  discriminate Hprio.
Qed.

(** The commit that fails with an error the loop does not retry: the
    transaction counts as ended, and RunTransaction returns nil. *)
Example failed_commit_returns_nil :
  option_map (fun r => (fst r, EndTransactions (trace (snd r))))
    (RunTransaction 1
       (testKV "foo" 101
          (newTestSender (fun _ _ => errReply TransactionStatusError)))
       testOpts emptyClosure (testWorld O))
  = Some (Returned None, 1%nat).
Proof. reflexivity. Qed.

End kv_props.


(** ** Reads and writes through a handle *)
Module access_props.
Import proto util client store.

Section Access.
Context {St U : Type}.
Implicit Types (kv : KV St U) (w : World St U).

(** The bytes handed to the decoder: a nil slice decodes as the empty
    buffer. *)
Lemma getDecoded_cases (format : string) (decode : list byte -> error)
      kv (key : Key) w (err : error) (reply : Response) w' :
  KV_Call kv Get (getArgs key) w = ((err, reply), w') ->
  getDecoded format decode kv key w =
  match err with
  | Some e => (Returned (false, zeroTimestamp, Some e), w')
  | None =>
      match RValue reply with
      | None => (Returned (false, zeroTimestamp, None), w')
      | Some v =>
          match Verify v key with
          | Some e => (Returned (false, zeroTimestamp, Some e), w')
          | None =>
              match Integer v with
              | Some _ =>
                  (Returned (false, zeroTimestamp, Some (Errorf format)), w')
              | None =>
                  match ValueTimestamp v with
                  | None => (Panicked, w')
                  | Some ts =>
                      (Returned (true, ts,
                                 decode (match Bytes v with
                                         | Some b => b
                                         | None => []
                                         end)), w')
                  end
              end
          end
      end
  end.
Proof.
  intros Hcall. unfold getDecoded, getInternal. rewrite Hcall.
  destruct err as [e|]; [reflexivity|].
  destruct (RValue reply) as [v|]; [|reflexivity].
  destruct (Verify v key); reflexivity.
Qed.

(** X1. A value that is found is reported with its timestamp whether or
    not it decodes: when the Get call succeeds with a value that passes
    verification, has no integer and has a timestamp, GetI and GetProto
    return (true, that timestamp, the decoder's error), the decoder being
    run on the value's bytes. *)
Theorem read_found :
  forall (decode : list byte -> error) kv (key : Key) w
         (reply : Response) w' (v : Value) (ts : Timestamp),
    KV_Call kv Get (getArgs key) w = ((None, reply), w') ->
    RValue reply = Some v ->
    Verify v key = None ->
    Integer v = None ->
    ValueTimestamp v = Some ts ->
    let bytes := match Bytes v with Some b => b | None => [] end in
    GetI decode kv key w = (Returned (true, ts, decode bytes), w') /\
    GetProto decode kv key w = (Returned (true, ts, decode bytes), w').
Proof.
  intros decode kv key w reply w' v ts Hcall Hval Hver Hint Hts bytes.
  unfold GetI, GetProto.
  rewrite (getDecoded_cases _ decode kv key w None reply w' Hcall).
  rewrite Hval, Hver, Hint, Hts. split; reflexivity.
Qed.

(** X2. GetI and GetProto report a value as found only if the call
    returned no error and the reply held a value that passed verification
    under the key, had no integer and had a timestamp; the timestamp
    returned is the value's, and the error is the decoder's. *)
Theorem read_found_only_if :
  forall (decode : list byte -> error) kv (key : Key) w
         (ts : Timestamp) (e : error) w',
    GetI decode kv key w = (Returned (true, ts, e), w') \/
    GetProto decode kv key w = (Returned (true, ts, e), w') ->
    exists (reply : Response) (v : Value),
      KV_Call kv Get (getArgs key) w = ((None, reply), w') /\
      RValue reply = Some v /\
      Verify v key = None /\
      Integer v = None /\
      ValueTimestamp v = Some ts /\
      e = decode (match Bytes v with Some b => b | None => [] end).
Proof.
  intros decode kv key w ts e w' Hfound.
  assert (H : getDecoded integerFormat decode kv key w
              = (Returned (true, ts, e), w'))
    by (destruct Hfound as [H | H]; exact H).
  clear Hfound.
  destruct (KV_Call kv Get (getArgs key) w) as [[err reply] w1] eqn:Hcall.
  rewrite (getDecoded_cases _ decode kv key w err reply w1 Hcall) in H.
  destruct err as [e'|]; [discriminate|].
  destruct (RValue reply) as [v|] eqn:Hval; [|discriminate].
  destruct (Verify v key) eqn:Hver; [discriminate|].
  destruct (Integer v) eqn:Hint; [discriminate|].
  destruct (ValueTimestamp v) as [ts'|] eqn:Hts; [|discriminate].
  inversion H; subst. exists reply, v. repeat split; assumption.
Qed.

(** X3. A failed call and a failed verification are reported alike: if
    the Get call returns an error, or it succeeds with a value that fails
    verification under the key, GetI and GetProto return (false, zero
    timestamp, that error); the value is neither decoded nor reported as
    found. *)
Theorem read_failure :
  forall (decode : list byte -> error) kv (key : Key) w
         (err : error) (reply : Response) w' (e : GoError),
    KV_Call kv Get (getArgs key) w = ((err, reply), w') ->
    err = Some e \/
    (err = None /\ exists v, RValue reply = Some v /\ Verify v key = Some e) ->
    GetI decode kv key w = (Returned (false, zeroTimestamp, Some e), w') /\
    GetProto decode kv key w = (Returned (false, zeroTimestamp, Some e), w').
Proof.
  intros decode kv key w err reply w' e Hcall Hfail.
  unfold GetI, GetProto.
  rewrite (getDecoded_cases _ decode kv key w err reply w' Hcall).
  destruct Hfail as [-> | (-> & v & Hval & Hver)].
  - split; reflexivity.
  - rewrite Hval, Hver. split; reflexivity.
Qed.

(** X4. A found value without timestamp makes the read panic: when the
    Get call succeeds with a value that passes verification, has no
    integer and has no timestamp, GetI and GetProto panic (they read
    through the nil timestamp pointer) instead of returning. *)
Theorem read_without_timestamp_panics :
  forall (decode : list byte -> error) kv (key : Key) w
         (reply : Response) w' (v : Value),
    KV_Call kv Get (getArgs key) w = ((None, reply), w') ->
    RValue reply = Some v ->
    Verify v key = None ->
    Integer v = None ->
    ValueTimestamp v = None ->
    GetI decode kv key w = (Panicked, w') /\
    GetProto decode kv key w = (Panicked, w').
Proof.
  intros decode kv key w reply w' v Hcall Hval Hver Hint Hts.
  unfold GetI, GetProto.
  rewrite (getDecoded_cases _ decode kv key w None reply w' Hcall).
  rewrite Hval, Hver, Hint, Hts. split; reflexivity.
Qed.

(** X5. A read through the transactional handle sends one request and
    leaves the transaction open or ended as it was: GetI and GetProto send
    exactly one Get call, for the key and with the current transaction
    attached, and do not change txnEnd. *)
Theorem read_through_txn_handle :
  forall (decode : list byte -> error) kv (key : Key) w,
    let call := wireCall kv Get (getArgs key) w in
    let w' := snd (GetI decode (txnKVof kv) key w) in
    snd (GetProto decode (txnKVof kv) key w) = w' /\
    since w w' = [Sent call] /\
    Method call = Get /\
    ReqKey (Header (Args call)) = key /\
    Txn (Header (Args call)) = Some (txn w) /\
    txnEnd w' = txnEnd w.
Proof.
  intros decode kv key w. cbv zeta.
  destruct (kv_props.KV_Call_txn kv Get (getArgs key) w)
    as (w1 & Hcall & Htr & Hend & _).
  unfold GetI, GetProto.
  rewrite (getDecoded_cases _ decode (txnKVof kv) key w _ _ w1 Hcall).
  assert (Hsnd : forall r : Outcome (bool * Timestamp * error) * World St U,
             (exists o, r = (o, w1)) -> snd r = w1)
    by (intros r [o ->]; reflexivity).
  match goal with
  | |- snd ?r = snd ?r /\ _ => assert (Hw : snd r = w1)
  end.
  { apply Hsnd.
    destruct (GoErrorOf _); [eexists; reflexivity|].
    destruct (RValue _) as [v|]; [|eexists; reflexivity].
    destruct (Verify v key); [eexists; reflexivity|].
    destruct (Integer v); [eexists; reflexivity|].
    destruct (ValueTimestamp v); eexists; reflexivity. }
  rewrite Hw. split; [reflexivity|].
  split; [apply kv_props.since_extends; exact Htr|].
  split; [reflexivity|].
  split.
  - simpl. destruct (kv_props.decorate_spec kv (Header (getArgs key)))
      as (_ & _ & Hk & _). exact Hk.
  - split; [reflexivity|].
    rewrite Hend, orb_false_r. reflexivity.
Qed.

(** X6. Writing through the transactional handle: when the encoding
    failed, PutI and PutProto return its error and send nothing; otherwise
    they send exactly one Put call for the key, whose value holds the
    encoded bytes and the CRC-32/IEEE of key followed by bytes as its
    checksum, return the error of the reply, and do not change txnEnd. *)
Theorem put_through_txn_handle :
  forall (kv0 kv : KV St U) (key : Key) (data : list byte) (e : GoError) w,
    let value := {| Bytes := Some data; Integer := None;
                    Checksum := Some (ChecksumIEEE (key ++ data));
                    ValueTimestamp := None |} in
    let call := wireCall kv Put {| Header := headerWithKey key;
                                   Body := PutRequest value |} w in
    let reply := fst (Sender kv call (wire w)) in
    PutI kv0 key (inr e) w = (Some e, w) /\
    PutProto kv0 key (inr e) w = (Some e, w) /\
    exists w',
      PutI (txnKVof kv) key (inl data) w = (GoErrorOf reply, w') /\
      PutProto (txnKVof kv) key (inl data) w = (GoErrorOf reply, w') /\
      since w w' = [Sent call] /\
      Method call = Put /\
      ReqKey (Header (Args call)) = key /\
      Body (Args call) = PutRequest value /\
      txnEnd w' = txnEnd w.
Proof.
  intros kv0 kv key data e w. cbv zeta.
  split; [reflexivity|]. split; [reflexivity|].
  destruct (kv_props.KV_Call_txn kv Put
              {| Header := headerWithKey key;
                 Body := PutRequest
                   {| Bytes := Some data; Integer := None;
                      Checksum := Some (ChecksumIEEE (key ++ data));
                      ValueTimestamp := None |} |} w)
    as (w1 & Hcall & Htr & Hend & _).
  exists w1. unfold PutI, PutProto, putInternal.
  change (InitChecksum _ key)
    with {| Bytes := Some data; Integer := None;
            Checksum := Some (ChecksumIEEE (key ++ data));
            ValueTimestamp := None |}.
  rewrite Hcall.
  split; [reflexivity|]. split; [reflexivity|].
  split; [apply kv_props.since_extends; exact Htr|].
  split; [reflexivity|]. split.
  - simpl. destruct (kv_props.decorate_spec kv (headerWithKey key))
      as (_ & _ & Hk & _). exact Hk.
  - split; [reflexivity|]. rewrite Hend, orb_false_r. reflexivity.
Qed.

(** X7. What a write sends, a read accepts under the same key only: if
    the Get call for a key answers with the value that PutI or PutProto
    sends for [data] under [key0] (bytes and checksum), stamped with a
    timestamp, then GetI and GetProto return (true, that timestamp, the
    decoder's result on [data]) when the two keys are the same, and
    (false, zero timestamp, IntegrityError) when the CRC of the reading key
    followed by the data differs from that of the writing key. *)
Theorem put_then_get :
  forall (decode : list byte -> error) kv (key0 key : Key)
         (data : list byte) (ts : Timestamp) w (reply : Response) w',
    KV_Call kv Get (getArgs key) w = ((None, reply), w') ->
    RValue reply = Some (stamped ts (InitChecksum (bytesValue data) key0)) ->
    (key = key0 ->
     GetI decode kv key w = (Returned (true, ts, decode data), w') /\
     GetProto decode kv key w = (Returned (true, ts, decode data), w')) /\
    (ChecksumIEEE (key ++ data) <> ChecksumIEEE (key0 ++ data) ->
     GetI decode kv key w
       = (Returned (false, zeroTimestamp, Some IntegrityError), w') /\
     GetProto decode kv key w
       = (Returned (false, zeroTimestamp, Some IntegrityError), w')).
Proof.
  intros decode kv key0 key data ts w reply w' Hcall Hval.
  unfold GetI, GetProto.
  rewrite (getDecoded_cases _ decode kv key w None reply w' Hcall), Hval.
  unfold Verify, stamped, InitChecksum, bytesValue. simpl.
  unfold computeChecksum, payload_bytes. simpl.
  split.
  - intros ->. rewrite Z.eqb_refl. split; reflexivity.
  - intros Hneq.
    destruct (Z.eqb_spec (ChecksumIEEE (key0 ++ data))
                (ChecksumIEEE (key ++ data))) as [Heq | _].
    + exfalso. apply Hneq. symmetry. exact Heq.
    + split; reflexivity.
Qed.

(** X8. The header defaults of Call settle at the first handle: applying
    the defaults of a handle twice is the same as applying them once, and
    a header that has received the defaults of a handle with a non-empty
    user and a non-zero user priority is left as it is by every other
    handle. *)
Theorem header_defaults_settle :
  forall (kv kv' : KV St U) (h : RequestHeader),
    decorate kv (decorate kv h) = decorate kv h /\
    (User kv <> EmptyString -> UserPriority kv <> 0 ->
     decorate kv' (decorate kv h) = decorate kv h).
Proof.
  intros kv kv' h. destruct h as [k u p t c].
  unfold decorate. simpl.
  destruct (String.eqb_spec u EmptyString) as [-> | Hu];
    destruct p as [p|]; simpl;
    destruct (Z.eqb_spec (UserPriority kv) 0) as [Hz | Hz]; simpl;
    destruct (String.eqb_spec (User kv) EmptyString) as [Hk | Hk]; simpl;
    try rewrite Hk; try rewrite Hz; simpl;
    try (destruct (String.eqb_spec u EmptyString); [contradiction|]); simpl;
    (split; [reflexivity | intros H1 H2; try contradiction; try reflexivity]).
Qed.

End Access.

Lemma read_found_witness :
  let kv : KV nat nat :=
    testKV "foo" 101 (newTestSender (fun _ _ => timedReply)) in
  let w' := snd (KV_Call kv Get (getArgs [x61]) (testWorld O)) in
  GetI (fun _ => Some (DecodeError "gob")) kv [x61] (testWorld O)
    = (Returned (true, {| WallTime := 5; Logical := 0 |},
                 Some (DecodeError "gob")), w') /\
  GetProto (fun _ => None) kv [x61] (testWorld O)
    = (Returned (true, {| WallTime := 5; Logical := 0 |}, None), w').
Proof.
  intros kv w'. split.
  - apply (read_found (fun _ => Some (DecodeError "gob")) kv [x61]
             (testWorld O) timedReply w'
             (stamped {| WallTime := 5; Logical := 0 |} (bytesValue [x76]))
             {| WallTime := 5; Logical := 0 |}); reflexivity.
  - apply (read_found (fun _ => None) kv [x61]
             (testWorld O) timedReply w'
             (stamped {| WallTime := 5; Logical := 0 |} (bytesValue [x76]))
             {| WallTime := 5; Logical := 0 |}); reflexivity.
Defined.

Lemma read_found_only_if_witness :
  let kv : KV nat nat :=
    testKV "foo" 101 (newTestSender (fun _ _ => timedReply)) in
  exists (reply : Response) (v : Value),
    fst (KV_Call kv Get (getArgs [x61]) (testWorld O)) = (None, reply) /\
    RValue reply = Some v /\
    Verify v [x61] = None /\
    ValueTimestamp v = Some {| WallTime := 5; Logical := 0 |}.
Proof.
  intros kv.
  destruct (read_found_only_if (fun _ => None) kv [x61] (testWorld O)
              {| WallTime := 5; Logical := 0 |} None
              (snd (KV_Call kv Get (getArgs [x61]) (testWorld O)))
              (or_introl eq_refl))
    as (reply & v & Hcall & Hval & Hver & _ & Hts & _).
  exists reply, v. rewrite Hcall.
  split; [reflexivity|]. split; [exact Hval|]. split; assumption.
Defined.

Lemma read_failure_witness :
  let kv : KV nat nat :=
    testKV "foo" 101 (newTestSender (fun _ _ => valueReply staleValue)) in
  let w' := snd (KV_Call kv Get (getArgs [x6b]) (testWorld O)) in
  GetI (fun _ => None) kv [x6b] (testWorld O)
    = (Returned (false, zeroTimestamp, Some IntegrityError), w') /\
  GetProto (fun _ => None) kv [x6b] (testWorld O)
    = (Returned (false, zeroTimestamp, Some IntegrityError), w').
Proof.
  intros kv w'.
  apply (read_failure (fun _ => None) kv [x6b] (testWorld O) None
           (valueReply staleValue) w' IntegrityError).
  - reflexivity.
  - right. split; [reflexivity|]. exists staleValue.
    split; [reflexivity | vm_compute; reflexivity].
Defined.

Lemma read_without_timestamp_panics_witness :
  let kv : KV nat nat :=
    testKV "foo" 101
      (newTestSender (fun _ _ => valueReply (bytesValue [x76]))) in
  fst (GetI (fun _ => None) kv [x61] (testWorld O)) = Panicked /\
  fst (GetProto (fun _ => None) kv [x61] (testWorld O)) = Panicked.
Proof.
  intros kv.
  destruct (read_without_timestamp_panics (fun _ => None) kv [x61]
              (testWorld O) (valueReply (bytesValue [x76]))
              (snd (KV_Call kv Get (getArgs [x61]) (testWorld O)))
              (bytesValue [x76]) eq_refl eq_refl eq_refl eq_refl eq_refl)
    as [HI HP].
  rewrite HI, HP. split; reflexivity.
Defined.

(** A value written with PutProto and read back with GetProto from the
    storing routing layer. *)
Lemma put_then_get_witness :
  let kv := storeKV "foo" 101 in
  let w1 := snd (PutProto kv [x6b] (inl [x76]) emptyStore) in
  let w2 := snd (KV_Call kv Get (getArgs [x6b]) w1) in
  GetProto (fun _ => None) kv [x6b] w1
  = (Returned (true, {| WallTime := 0; Logical := 0 |}, None), w2).
Proof.
  intros kv w1 w2.
  apply (put_then_get (fun _ => None) kv [x6b] [x6b] [x76]
           {| WallTime := 0; Logical := 0 |} w1
           (fst (storeSender
                   {| Method := Get;
                      Args := {| Header := decorate kv (headerWithKey [x6b]);
                                 Body := GetRequest |} |}
                   (wire w1)))
           w2); reflexivity.
Defined.

Lemma header_defaults_settle_witness :
  decorate (testKV (U := nat) "bar" 7 okSender)
    (decorate testClient (headerWithKey [x61]))
  = decorate testClient (headerWithKey [x61]).
Proof.
  apply (header_defaults_settle testClient (testKV "bar" 7 okSender)
           (headerWithKey [x61])).
  - discriminate.
  - discriminate.
Defined.

End access_props.


(** ** Whole runs of RunTransaction *)
Module txn_props.
Import proto util client traces driver.

Section Txn.
Context {St U : Type} {RT : Runtime St}.
Implicit Types (kv : KV St U) (w : World St U) (evs : list Event).

Lemma EndTransactions_pos evs :
  negb (EndTransactions evs =? 0)%nat = true -> (1 <= EndTransactions evs)%nat.
Proof.
  destruct (EndTransactions evs); simpl; [discriminate | lia].
Qed.

Lemma dispatch_break (err e : error) :
  dispatch err = (RetryBreak, e) -> e = err.
Proof.
  destruct err as [[]|]; simpl; intros H; inversion H; reflexivity.
Qed.

(** The closure's run adds calls only; [txnEnd] is set exactly when one
    of them is an EndTransaction. *)
Lemma run_events kv (p : Prog U) :
  forall w (o : Outcome error) w',
    run (txnKVof kv) p w = (o, w') ->
    exists evs,
      trace w' = trace w ++ evs /\
      Forall (fun ev => exists c, ev = Sent c) evs /\
      txnEnd w' = txnEnd w || negb (EndTransactions evs =? 0)%nat.
Proof.
  induction p as [u err | u | method args k IH]; intros w o w' Hrun.
  - inversion Hrun; subst. exists []. simpl.
    rewrite app_nil_r, orb_false_r. repeat split. constructor.
  - inversion Hrun; subst. exists []. simpl.
    rewrite app_nil_r, orb_false_r. repeat split. constructor.
  - simpl in Hrun.
    destruct (kv_props.KV_Call_txn kv method args w)
      as (w1 & Hcall & Htr & Hend & _).
    rewrite Hcall in Hrun.
    destruct (IH _ _ _ _ Hrun) as (evs & Htr' & Hsent & Hend').
    exists (Sent (wireCall kv method args w) :: evs). split; [|split].
    + rewrite Htr', Htr, <- app_assoc. reflexivity.
    + constructor; [eexists; reflexivity | exact Hsent].
    + rewrite Hend', Hend, kv_props.EndTransactions_Sent,
        kv_props.wireCall_Method.
      destruct (Method_eqb method EndTransaction); simpl;
        rewrite ?orb_true_r, ?orb_false_r; reflexivity.
Qed.

(** One epoch adds calls only; it leaves [txnEnd] set exactly when one of
    them is an EndTransaction, and it breaks the loop with nil only with
    [txnEnd] set. *)
Lemma epoch_events kv (retryable : U -> Prog U) w
      (o : Outcome (RetryStatus * error)) w1 :
  epoch (txnKVof kv) retryable w = (o, w1) ->
  exists evs,
    trace w1 = trace w ++ evs /\
    Forall (fun ev => exists c, ev = Sent c) evs /\
    txnEnd w1 = negb (EndTransactions evs =? 0)%nat /\
    (o = Returned (RetryBreak, None) -> txnEnd w1 = true).
Proof.
  unfold epoch, epoch_err.
  destruct (run (txnKVof kv) (retryable (captured (set_txnEnd false w)))
              (set_txnEnd false w)) as [[err|] w0] eqn:Hrun;
    destruct (run_events _ _ _ _ _ Hrun) as (evs & Htr & Hsent & Hend);
    simpl in Htr, Hend.
  - destruct (is_nil err && negb (txnEnd w0)) eqn:Hcommit.
    + destruct (kv_props.KV_Call_txn kv EndTransaction
                  (endTransactionArgs true) w0)
        as (w2 & Hcall & Htr2 & Hend2 & _).
      rewrite Hcall. intros Heq. inversion Heq; subst.
      assert (Hset : txnEnd w1 = true)
        by (rewrite Hend2; apply orb_true_r).
      exists (evs ++ [Sent (wireCall kv EndTransaction
                             (endTransactionArgs true) w0)]).
      split; [rewrite Htr2, Htr, <- app_assoc; reflexivity|].
      split.
      * apply Forall_app. split; [exact Hsent|].
        constructor; [eexists; reflexivity | constructor].
      * split; [|intros _; exact Hset].
        rewrite Hset, kv_props.EndTransactions_app,
          kv_props.EndTransactions_Sent, kv_props.wireCall_Method.
        simpl. rewrite Nat.add_comm. reflexivity.
    + intros Heq. inversion Heq; subst.
      exists evs. split; [exact Htr|]. split; [exact Hsent|].
      split; [exact Hend|].
      intros Hbreak. inversion Hbreak as [Hd].
      apply dispatch_break in Hd. subst err. simpl in Hcommit.
      destruct (txnEnd w1); [reflexivity | discriminate].
  - intros Heq. inversion Heq; subst.
    exists evs. split; [exact Htr|]. split; [exact Hsent|].
    split; [exact Hend | discriminate].
Qed.

(** The loop adds calls and sleeps; the sleeps keep an invariant of the
    backoff. When it ends with [txnEnd] set, an EndTransaction has been
    sent; when it ends with nil, [txnEnd] is set. *)
Lemma loop_events kv (retryable : U -> Prog U) (ropts : RetryOptions)
      (P : Event -> Prop) (I : Duration -> Prop) :
  (forall c, P (Sent c)) ->
  (forall d, I d -> P (Slept d)) ->
  (forall d, I d -> I (next_backoff ropts d)) ->
  I (Backoff ropts) ->
  forall (fuel : nat) (backoff : Duration) (count : Z) w
         (o : Outcome error) w1,
    I backoff ->
    retry_loop sleep fuel ropts (epoch (txnKVof kv) retryable)
      backoff count w = Some (o, w1) ->
    exists evs,
      trace w1 = trace w ++ evs /\
      Forall P evs /\
      (txnEnd w1 = true -> (1 <= EndTransactions evs)%nat) /\
      (o = Returned None -> txnEnd w1 = true).
Proof.
  intros HPsent HPslept Hnext Hinit fuel.
  induction fuel as [|fuel IH]; intros backoff count w o w1 Hb Hloop.
  - discriminate.
  - cbn [retry_loop] in Hloop.
    destruct (epoch (txnKVof kv) retryable w) as [[[status e]|] w0] eqn:He;
      destruct (epoch_events _ _ _ _ _ He)
        as (evs & Htr & Hsent & Hend & Hbreak);
      assert (HP : Forall P evs)
        by (eapply Forall_impl; [|exact Hsent]; intros ev [c ->]; apply HPsent).
    + destruct status.
      * inversion Hloop; subst o w1. exists evs.
        split; [exact Htr|]. split; [exact HP|]. split.
        -- intros Hset. apply EndTransactions_pos. rewrite <- Hend. exact Hset.
        -- intros Ho. inversion Ho; subst e. apply Hbreak. reflexivity.
      * destruct (IH _ _ _ _ _ Hinit Hloop)
          as (evs' & Htr' & HP' & Hpos' & Hnil').
        exists (evs ++ evs').
        split; [rewrite Htr', Htr, <- app_assoc; reflexivity|].
        split; [apply Forall_app; split; assumption|].
        split; [|exact Hnil'].
        intros Hset. rewrite kv_props.EndTransactions_app.
        specialize (Hpos' Hset). lia.
      * destruct ((0 <? MaxAttempts ropts) && (MaxAttempts ropts <=? count)).
        -- inversion Hloop; subst o w1. exists evs.
           split; [exact Htr|]. split; [exact HP|]. split.
           ++ intros Hset. apply EndTransactions_pos. rewrite <- Hend.
              exact Hset.
           ++ discriminate.
        -- destruct (IH _ _ _ _ _ (Hnext _ Hb) Hloop)
             as (evs' & Htr' & HP' & Hpos' & Hnil').
           exists (evs ++ Slept backoff :: evs').
           split; [rewrite Htr'; simpl; rewrite Htr, <- !app_assoc;
                   reflexivity|].
           split.
           ++ apply Forall_app. split; [exact HP|].
              constructor; [apply HPslept; exact Hb | exact HP'].
           ++ split; [|exact Hnil'].
              intros Hset. rewrite kv_props.EndTransactions_app.
              specialize (Hpos' Hset).
              change (EndTransactions (Slept backoff :: evs'))
                with (EndTransactions evs'). lia.
    + inversion Hloop; subst o w1. exists evs.
      split; [exact Htr|]. split; [exact HP|]. split.
      * intros Hset. apply EndTransactions_pos. rewrite <- Hend. exact Hset.
      * discriminate.
Qed.

(** What follows the loop adds at most the abort call and a log entry,
    and then the closing of the handle. *)
Lemma finish_shape kv (o1 : Outcome error) w1 (o : Outcome error) w' :
  finish (txnKVof kv) (o1, w1) = (o, w') ->
  exists mid,
    trace w' = trace w1 ++ mid ++ [Closed] /\
    Forall (fun ev => (exists c, ev = Sent c) \/ ev = Logged abortLogFormat)
      mid /\
    ((mid = [] /\ txnEnd w' = txnEnd w1 /\
      (forall r, o = Returned r -> o1 = Returned None \/ txnEnd w1 = true)) \/
     ((1 <= EndTransactions mid)%nat /\ txnEnd w' = true)).
Proof.
  unfold finish. destruct o1 as [err|].
  - destruct (negb (is_nil err) && negb (txnEnd w1)) eqn:Habort.
    + destruct (kv_props.KV_Call_txn kv EndTransaction
                  (endTransactionArgs false) w1)
        as (w2 & Hcall & Htr & Hend & _).
      rewrite Hcall.
      assert (Hset : txnEnd w2 = true) by (rewrite Hend; apply orb_true_r).
      destruct (is_nil (GoErrorOf _)); intros Heq; inversion Heq; subst;
        simpl.
      * exists [Sent (wireCall kv EndTransaction (endTransactionArgs false) w1)].
        split; [rewrite Htr, <- app_assoc; reflexivity|].
        split; [constructor; [left; eexists; reflexivity | constructor]|].
        right. split; [unfold EndTransactions; simpl; lia | exact Hset].
      * exists [Sent (wireCall kv EndTransaction (endTransactionArgs false) w1);
                Logged abortLogFormat].
        split; [rewrite Htr, <- !app_assoc; reflexivity|].
        split.
        -- constructor; [left; eexists; reflexivity|].
           constructor; [right; reflexivity | constructor].
        -- right. split; [unfold EndTransactions; simpl; lia | exact Hset].
    + intros Heq. inversion Heq; subst. simpl. exists [].
      split; [reflexivity|]. split; [constructor|].
      left. split; [reflexivity|]. split; [reflexivity|].
      intros r _. destruct err as [e|]; [right | left; reflexivity].
      simpl in Habort. destruct (txnEnd w1); [reflexivity | discriminate].
  - intros Heq. inversion Heq; subst. simpl. exists [].
    split; [reflexivity|]. split; [constructor|].
    left. split; [reflexivity|]. split; [reflexivity|]. discriminate.
Qed.

(** The events of a whole run: those of the loop, those after the loop,
    and the closing of the handle. *)
Lemma RunTransaction_shape (fuel : nat) kv (opts : TransactionOptions)
      (retryable : U -> Prog U) w (o : Outcome error) w'
      (P : Event -> Prop) (I : Duration -> Prop) :
  (forall c, P (Sent c)) ->
  (forall d, I d -> P (Slept d)) ->
  (forall d, I d -> I (next_backoff (retryOptsFor opts) d)) ->
  I (Backoff (retryOptsFor opts)) ->
  dynType (sender kv) = singleCallSender ->
  RunTransaction fuel kv opts retryable w = Some (o, w') ->
  exists evs mid,
    since w w' = evs ++ mid ++ [Closed] /\
    Forall P evs /\
    Forall (fun ev => (exists c, ev = Sent c) \/ ev = Logged abortLogFormat)
      mid /\
    (forall r, o = Returned r ->
       txnEnd w' = true /\
       (1 <= EndTransactions (evs ++ mid))%nat).
Proof.
  intros HPsent HPslept Hnext Hinit Hkind Hrun.
  unfold RunTransaction in Hrun. rewrite Hkind in Hrun.
  destruct (RetryWithBackoff sleep fuel (retryOptsFor opts)
              (epoch (txnKVof kv) retryable) (begin kv opts w))
    as [[o1 w1]|] eqn:Hloop; [|discriminate].
  assert (Hfin : finish (txnKVof kv) (o1, w1) = (o, w')) by congruence.
  destruct (loop_events kv retryable _ P I HPsent HPslept Hnext Hinit
              _ _ _ _ _ _ Hinit Hloop)
    as (evs & Htr & HP & Hpos & Hnil).
  destruct (finish_shape _ _ _ _ _ Hfin) as (mid & Htr' & Hmid & Hcases).
  simpl in Htr.
  exists evs, mid. split; [|split; [exact HP | split; [exact Hmid|]]].
  - apply kv_props.since_extends.
    rewrite Htr', Htr, <- !app_assoc. reflexivity.
  - intros r Ho. rewrite kv_props.EndTransactions_app.
    destruct Hcases as [(Hempty & Hsame & Hwhy) | (Hone & Hset)].
    + assert (Hset1 : txnEnd w1 = true).
      { destruct (Hwhy r Ho) as [Ho1 | Hset1]; [|exact Hset1].
        apply Hnil. exact Ho1. }
      split; [rewrite Hsame; exact Hset1|].
      specialize (Hpos Hset1). lia.
    + split; [exact Hset | lia].
Qed.

(** X9. RunTransaction does not return with the transaction left open:
    whenever it returns, with nil or with an error, txnEnd is set and at
    least one EndTransaction has been sent during the run (by the closure,
    by the commit of an epoch, or by the abort). *)
Theorem transaction_ended_on_return :
  forall (fuel : nat) kv (opts : TransactionOptions)
         (retryable : U -> Prog U) w (r : error) w',
    dynType (sender kv) = singleCallSender ->
    RunTransaction fuel kv opts retryable w = Some (Returned r, w') ->
    txnEnd w' = true /\
    (1 <= EndTransactions (since w w'))%nat.
Proof.
  intros fuel kv opts retryable w r w' Hkind Hrun.
  destruct (RunTransaction_shape fuel kv opts retryable w _ w'
              (fun _ => True) (fun _ => True)
              (fun _ => I) (fun _ _ => I) (fun _ _ => I) I Hkind Hrun)
    as (evs & mid & Hsince & _ & _ & Hret).
  destruct (Hret r eq_refl) as [Hset Hone].
  split; [exact Hset|].
  rewrite Hsince, app_assoc, kv_props.EndTransactions_app. lia.
Qed.

(** X10. On every way out of RunTransaction, a panic of the closure
    included, the last thing the driver does is to close the
    transactional handle: between the end of the retry loop and that
    closing it adds nothing, or the abort call alone, or the abort call
    and the log entry for its error; after a panic it adds nothing. *)
Theorem handle_closed_last :
  forall (fuel : nat) kv (opts : TransactionOptions)
         (retryable : U -> Prog U) w (o : Outcome error) w',
    dynType (sender kv) = singleCallSender ->
    RunTransaction fuel kv opts retryable w = Some (o, w') ->
    exists (o1 : Outcome error) w1 mid,
      RetryWithBackoff sleep fuel (retryOptsFor opts)
        (epoch (txnKVof kv) retryable) (begin kv opts w) = Some (o1, w1) /\
      trace w' = trace w1 ++ mid ++ [Closed] /\
      (mid = [] \/
       mid = [Sent (wireCall kv EndTransaction (endTransactionArgs false) w1)] \/
       mid = [Sent (wireCall kv EndTransaction (endTransactionArgs false) w1);
              Logged abortLogFormat]) /\
      (o1 = Panicked -> o = Panicked /\ mid = []).
Proof.
  intros fuel kv opts retryable w o w' Hkind Hrun.
  unfold RunTransaction in Hrun. rewrite Hkind in Hrun.
  destruct (RetryWithBackoff sleep fuel (retryOptsFor opts)
              (epoch (txnKVof kv) retryable) (begin kv opts w))
    as [[o1 w1]|] eqn:Hloop; [|discriminate].
  assert (Hfin : finish (txnKVof kv) (o1, w1) = (o, w')) by congruence.
  clear Hrun. exists o1, w1. unfold finish in Hfin.
  destruct o1 as [err|].
  - destruct (negb (is_nil err) && negb (txnEnd w1)).
    + destruct (kv_props.KV_Call_txn kv EndTransaction
                  (endTransactionArgs false) w1)
        as (w2 & Hcall & Htr & _).
      rewrite Hcall in Hfin.
      destruct (is_nil (GoErrorOf _)); inversion Hfin; subst; simpl.
      * exists [Sent (wireCall kv EndTransaction (endTransactionArgs false) w1)].
        split; [reflexivity|].
        split; [rewrite Htr, <- app_assoc; reflexivity|].
        split; [right; left; reflexivity | discriminate].
      * exists [Sent (wireCall kv EndTransaction (endTransactionArgs false) w1);
                Logged abortLogFormat].
        split; [reflexivity|].
        split; [rewrite Htr, <- !app_assoc; reflexivity|].
        split; [right; right; reflexivity | discriminate].
    + inversion Hfin; subst; simpl. exists [].
      split; [reflexivity|]. split; [reflexivity|].
      split; [left; reflexivity | discriminate].
  - inversion Hfin; subst; simpl. exists [].
    split; [reflexivity|]. split; [reflexivity|].
    split; [left; reflexivity|]. intros _. split; reflexivity.
Qed.

Lemma sleeps_Forall (Q : Duration -> Prop) evs :
  Forall (fun ev => match ev with Slept d => Q d | _ => True end) evs ->
  Forall Q (sleeps evs).
Proof.
  induction 1 as [|ev evs Hev _ IH]; simpl; [constructor|].
  destruct ev; simpl; try exact IH. constructor; assumption.
Qed.

Lemma RunTransactionWith_declared (fuel : nat) kv (opts : TransactionOptions)
      (retryable : U -> Prog U) w :
  RunTransactionWith TxnRetryOptions fuel kv opts retryable w
  = RunTransaction fuel kv opts retryable w.
Proof. reflexivity. Qed.

(** X11. Whatever value the package variable TxnRetryOptions holds when
    RunTransaction copies it, provided its Backoff is not negative and not
    above its MaxBackoff and its Constant is a whole number not below 1,
    every backoff sleep of the run lasts at least that Backoff and at most
    that MaxBackoff. With the values the variable is declared with, every
    sleep lasts at least 50 ms and at most 5 s. *)
Theorem sleeps_between_backoff_and_max :
  forall (current : RetryOptions) (fuel : nat) kv
         (opts : TransactionOptions) (retryable : U -> Prog U) w
         (o : Outcome error) w',
    0 <= Backoff current <= MaxBackoff current ->
    1 <= Constant current ->
    dynType (sender kv) = singleCallSender ->
    RunTransactionWith current fuel kv opts retryable w = Some (o, w') ->
    Forall (fun d => Backoff current <= d <= MaxBackoff current)
      (sleeps (since w w')) /\
    (current = TxnRetryOptions ->
     RunTransaction fuel kv opts retryable w = Some (o, w') /\
     Forall (fun d => 50 * Millisecond <= d <= 5 * Second)
       (sleeps (since w w'))).
Proof.
  intros current fuel kv opts retryable w o w' Hb Hc Hkind Hrun.
  assert (Hall : Forall (fun d => Backoff current <= d <= MaxBackoff current)
                   (sleeps (since w w'))).
  { unfold RunTransactionWith in Hrun. rewrite Hkind in Hrun.
    destruct (RetryWithBackoff sleep fuel (retryOptsWith current opts)
                (epoch (txnKVof kv) retryable) (begin kv opts w))
      as [[o1 w1]|] eqn:Hloop; [|discriminate].
    assert (Hfin : finish (txnKVof kv) (o1, w1) = (o, w')) by congruence.
    destruct (loop_events kv retryable (retryOptsWith current opts)
                (fun ev => match ev with
                           | Slept d =>
                               Backoff current <= d <= MaxBackoff current
                           | _ => True
                           end)
                (fun d => Backoff current <= d <= MaxBackoff current))
      with (fuel := fuel) (backoff := Backoff (retryOptsWith current opts))
           (count := 1) (w := begin kv opts w) (o := o1) (w1 := w1)
      as (evs & Htr & HP & _).
    - intros c. exact I.
    - intros d Hd. exact Hd.
    - intros d Hd. unfold next_backoff. simpl (Constant _).
      simpl (MaxBackoff _). nia.
    - simpl. lia.
    - simpl. lia.
    - exact Hloop.
    - destruct (finish_shape _ _ _ _ _ Hfin) as (mid & Htr' & Hmid & _).
      simpl in Htr.
      rewrite (kv_props.since_extends w w' (evs ++ mid ++ [Closed])).
      + apply sleeps_Forall.
        apply Forall_app. split; [exact HP|].
        apply Forall_app. split.
        * eapply Forall_impl; [|exact Hmid].
          intros ev [[c ->] | ->]; exact I.
        * constructor; [exact I | constructor].
      + rewrite Htr', Htr, <- !app_assoc. reflexivity. }
  split; [exact Hall|].
  intros ->. split.
  - rewrite <- RunTransactionWith_declared. exact Hrun.
  - exact Hall.
Qed.

(** X12. A first epoch that commits: if the closure returns nil without
    having ended the transaction, and the reply to the commit carries no
    error or an error the loop does not retry, RunTransaction returns nil
    after that one epoch, in both cases, and sends after the closure's
    calls the EndTransaction with commit = true and nothing else. *)
Theorem single_epoch_commit :
  forall (fuel : nat) kv (opts : TransactionOptions)
         (retryable : U -> Prog U) w w1,
    dynType (sender kv) = singleCallSender ->
    run (txnKVof kv) (retryable (captured w)) (begin kv opts w)
      = (Returned None, w1) ->
    txnEnd w1 = false ->
    let call := wireCall kv EndTransaction (endTransactionArgs true) w1 in
    let reply := fst (Sender kv call (wire w1)) in
    fst (dispatch (GoErrorOf reply)) = RetryBreak ->
    exists w',
      RunTransaction (S fuel) kv opts retryable w = Some (Returned None, w') /\
      since w1 w' = [Sent call; Closed] /\
      Body (Args call) = EndTransactionRequest true.
Proof.
  intros fuel kv opts retryable w w1 Hkind Hrun Hopen. cbv zeta.
  intros Hbreak.
  unfold RunTransaction, RetryWithBackoff. rewrite Hkind.
  cbn [retry_loop]. unfold epoch, epoch_err.
  change (set_txnEnd false (begin kv opts w)) with (begin kv opts w).
  change (captured (begin kv opts w)) with (captured w).
  rewrite Hrun. simpl is_nil. rewrite Hopen. simpl andb. cbv iota.
  destruct (kv_props.KV_Call_txn kv EndTransaction (endTransactionArgs true) w1)
    as (w2 & Hcall & Htr & Hend & _).
  rewrite Hcall.
  destruct (dispatch (GoErrorOf (fst (Sender kv _ _)))) as [status e'].
  simpl in Hbreak. subst status.
  assert (Hset : txnEnd w2 = true) by (rewrite Hend; apply orb_true_r).
  unfold finish. rewrite Hset, andb_false_r.
  eexists. split; [reflexivity|]. split; [|reflexivity].
  apply kv_props.since_extends. simpl. rewrite Htr, <- app_assoc.
  reflexivity.
Qed.

(** X13. A first epoch that fails: if the closure returns an error the
    loop does not retry, without having ended the transaction,
    RunTransaction returns that error after the one epoch; after the
    closure's calls it sends the EndTransaction with commit = false, logs
    the error of that call if there is one, and closes the handle. *)
Theorem single_epoch_abort :
  forall (fuel : nat) kv (opts : TransactionOptions)
         (retryable : U -> Prog U) w (e : GoError) w1,
    dynType (sender kv) = singleCallSender ->
    run (txnKVof kv) (retryable (captured w)) (begin kv opts w)
      = (Returned (Some e), w1) ->
    txnEnd w1 = false ->
    fst (dispatch (Some e)) = RetryBreak ->
    let call := wireCall kv EndTransaction (endTransactionArgs false) w1 in
    let reply := fst (Sender kv call (wire w1)) in
    exists w',
      RunTransaction (S fuel) kv opts retryable w
        = Some (Returned (Some e), w') /\
      since w1 w' =
        Sent call ::
        (if is_nil (GoErrorOf reply) then [] else [Logged abortLogFormat])
        ++ [Closed] /\
      Body (Args call) = EndTransactionRequest false.
Proof.
  intros fuel kv opts retryable w e w1 Hkind Hrun Hopen Hbreak. cbv zeta.
  unfold RunTransaction, RetryWithBackoff. rewrite Hkind.
  cbn [retry_loop]. unfold epoch, epoch_err.
  change (set_txnEnd false (begin kv opts w)) with (begin kv opts w).
  change (captured (begin kv opts w)) with (captured w).
  rewrite Hrun. simpl is_nil. simpl andb. cbv iota.
  destruct (dispatch (Some e)) as [status e'] eqn:Hd.
  simpl in Hbreak. subst status.
  apply dispatch_break in Hd. subst e'.
  destruct (kv_props.finish_abort kv e w1 Hopen) as (w3 & Hfin & Hsince).
  exists w3. split; [f_equal; exact Hfin|].
  split; [exact Hsince | reflexivity].
Qed.

(** X14. A first epoch in which the closure ends the transaction itself:
    if txnEnd is set when the closure returns, and its result is nil or an
    error the loop does not retry, RunTransaction sends nothing more,
    closes the handle and returns nil, whatever the closure returned. *)
Theorem single_epoch_explicit_end :
  forall (fuel : nat) kv (opts : TransactionOptions)
         (retryable : U -> Prog U) w (err : error) w1,
    dynType (sender kv) = singleCallSender ->
    run (txnKVof kv) (retryable (captured w)) (begin kv opts w)
      = (Returned err, w1) ->
    txnEnd w1 = true ->
    fst (dispatch err) = RetryBreak ->
    RunTransaction (S fuel) kv opts retryable w
      = Some (Returned None, record Closed w1).
Proof.
  intros fuel kv opts retryable w err w1 Hkind Hrun Hended Hbreak.
  unfold RunTransaction, RetryWithBackoff. rewrite Hkind.
  cbn [retry_loop]. unfold epoch, epoch_err.
  change (set_txnEnd false (begin kv opts w)) with (begin kv opts w).
  change (captured (begin kv opts w)) with (captured w).
  rewrite Hrun, Hended, andb_false_r.
  destruct (dispatch err) as [status e'].
  simpl in Hbreak. subst status.
  unfold finish. rewrite Hended, andb_false_r. reflexivity.
Qed.

End Txn.

Lemma transaction_ended_on_return_witness :
  exists w',
    RunTransaction 1 testClient testOpts failingClosure (testWorld O)
      = Some (Returned (Some (ErrorsNew "foo")), w') /\
    txnEnd w' = true /\
    (1 <= EndTransactions (since (testWorld O) w'))%nat.
Proof.
  eexists. split; [reflexivity|].
  apply (transaction_ended_on_return 1 testClient testOpts failingClosure
           (testWorld O) (Some (ErrorsNew "foo")) _ eq_refl eq_refl).
Defined.

Lemma handle_closed_last_witness :
  exists (o1 : Outcome error) w1 w',
    RunTransaction 1 testClient testOpts panickingClosure (testWorld O)
      = Some (Panicked, w') /\
    RetryWithBackoff sleep 1 (retryOptsFor testOpts)
      (epoch (txnKVof testClient) panickingClosure)
      (begin testClient testOpts (testWorld O)) = Some (o1, w1) /\
    trace w' = trace w1 ++ [Closed].
Proof.
  destruct (handle_closed_last 1 testClient testOpts panickingClosure
              (testWorld O) Panicked _ eq_refl eq_refl)
    as (o1 & w1 & mid & Hloop & Htr & _ & Hpanic).
  assert (Ho1 : o1 = Panicked).
  { unfold RetryWithBackoff in Hloop. simpl in Hloop.
    inversion Hloop. reflexivity. }
  destruct (Hpanic Ho1) as [_ Hmid]. subst mid.
  exists o1, w1. eexists. split; [reflexivity|].
  split; [exact Hloop | exact Htr].
Defined.

(** The run of TestKVRunTransactionRetryOnErrors, with the backoff of
    1 ms the test sets. *)
Lemma sleeps_between_backoff_and_max_witness :
  let kv : KV nat nat :=
    testKV "foo" 101 (newTestSender (failFirstPut TransactionAbortedError)) in
  exists w',
    RunTransactionWith testRetryOptions 2 kv testOpts putOnce (testWorld O)
      = Some (Returned None, w') /\
    sleeps (since (testWorld O) w') = [1 * Millisecond] /\
    Forall (fun d => 1 * Millisecond <= d <= 5 * Second)
      (sleeps (since (testWorld O) w')).
Proof.
  intros kv. eexists. split; [reflexivity|]. split; [reflexivity|].
  apply (sleeps_between_backoff_and_max testRetryOptions 2 kv testOpts putOnce
           (testWorld O) (Returned None) _).
  - unfold testRetryOptions, Second, Millisecond. simpl. lia.
  - simpl. lia.
  - reflexivity.
  - reflexivity.
Defined.

Lemma single_epoch_commit_witness :
  let kv : KV nat nat :=
    testKV "foo" 101
      (newTestSender (fun _ _ => errReply TransactionStatusError)) in
  exists w',
    RunTransaction 1 kv testOpts emptyClosure (testWorld O)
      = Some (Returned None, w') /\
    since (set_captured 1%nat (begin kv testOpts (testWorld O))) w'
      = [Sent (wireCall kv EndTransaction (endTransactionArgs true)
                 (begin kv testOpts (testWorld O)));
         Closed].
Proof.
  intros kv.
  destruct (single_epoch_commit 0 kv testOpts emptyClosure (testWorld O)
              (set_captured 1%nat (begin kv testOpts (testWorld O)))
              eq_refl eq_refl eq_refl eq_refl)
    as (w' & Hrun & Hsince & _).
  exists w'. split; [exact Hrun | exact Hsince].
Defined.

Lemma single_epoch_abort_witness :
  let kv : KV nat nat :=
    testKV "foo" 101
      (newTestSender (fun _ _ => errReply TransactionStatusError)) in
  exists w',
    RunTransaction 1 kv testOpts failingClosure (testWorld O)
      = Some (Returned (Some (ErrorsNew "foo")), w') /\
    since (set_captured 1%nat (begin kv testOpts (testWorld O))) w'
      = [Sent (wireCall kv EndTransaction (endTransactionArgs false)
                 (begin kv testOpts (testWorld O)));
         Logged abortLogFormat; Closed].
Proof.
  intros kv.
  destruct (single_epoch_abort 0 kv testOpts failingClosure (testWorld O)
              (ErrorsNew "foo")
              (set_captured 1%nat (begin kv testOpts (testWorld O)))
              eq_refl eq_refl eq_refl eq_refl)
    as (w' & Hrun & Hsince & _).
  exists w'. split; [exact Hrun | exact Hsince].
Defined.

Lemma single_epoch_explicit_end_witness :
  option_map (fun r => (fst r, sentSummary (trace (snd r))))
    (RunTransaction 1 testClient testOpts
       (fun u => DoCall EndTransaction (endTransactionArgs false)
                   (fun _ => Return (S u) (Some (ErrorsNew "foo"))))
       (testWorld O))
  = Some (Returned None, [(EndTransaction, EndTransactionRequest false)]).
Proof.
  rewrite (single_epoch_explicit_end 0 testClient testOpts
             (fun u => DoCall EndTransaction (endTransactionArgs false)
                         (fun _ => Return (S u) (Some (ErrorsNew "foo"))))
             (testWorld O) (Some (ErrorsNew "foo")) _
             eq_refl eq_refl eq_refl eq_refl).
  reflexivity.
Defined.

End txn_props.


(** ** Range and store statistics *)
Module engine_props.
Import proto engine.

Section Stats.
Context {E : Type} {EN : Engine E} {CO : Codec}.

(** X15. When nothing is to be written the engine is left alone: with a
    zero stat value MergeStat and SetStat return the engine as it is
    without encoding anything, and so they do with a zero range ID and a
    zero store ID once the value has been encoded. When the encoding of a
    non-zero value fails they panic, whatever the IDs are. *)
Theorem stat_noop_and_panic :
  forall (e : E) (rangeID storeID : Z) (stat : Key) (statVal : Z),
    (statVal = 0 ->
     MergeStat e rangeID storeID stat statVal = Returned e /\
     SetStat e rangeID storeID stat statVal = Returned e) /\
    (forall enc : list byte,
        Marshal (statValue statVal) = inl enc ->
        rangeID = 0 -> storeID = 0 ->
        MergeStat e rangeID storeID stat statVal = Returned e /\
        SetStat e rangeID storeID stat statVal = Returned e) /\
    (forall err : GoError,
        statVal <> 0 ->
        Marshal (statValue statVal) = inr err ->
        MergeStat e rangeID storeID stat statVal = Panicked /\
        SetStat e rangeID storeID stat statVal = Panicked).
Proof.
  intros e rangeID storeID stat statVal.
  unfold MergeStat, SetStat, encodeStatValue. split; [|split].
  - intros ->. split; reflexivity.
  - intros enc Henc -> ->. rewrite Henc.
    destruct (statVal =? 0); split; reflexivity.
  - intros err Hnz Herr. rewrite Herr.
    destruct (Z.eqb_spec statVal 0) as [Hz | _]; [contradiction|].
    split; reflexivity.
Qed.

(** X16. A range stat that is set can be read back: on an engine where a
    key that was put reads as the message that was encoded, and where a
    put to another key does not change what a key reads as, SetStat with a
    non-zero value and a non-zero range ID followed by GetRangeStat for the
    same range and stat returns the value, also when the store stat is
    written after it (under a different key). *)
Theorem set_then_get_range_stat :
  forall (e : E) (rangeID storeID : Z) (stat : Key) (statVal : Z)
         (enc : list byte),
    statVal <> 0 ->
    rangeID <> 0 ->
    Marshal (statValue statVal) = inl enc ->
    (forall (e0 : E) (k : list byte),
        GetProto (Put k enc e0) k = (true, statValue statVal, None)) ->
    (forall (e0 : E) (k k' : list byte),
        k <> k' -> GetProto (Put k' enc e0) k = GetProto e0 k) ->
    (storeID <> 0 ->
     MVCCEncodeKey (MakeRangeStatKey rangeID stat) <>
     MVCCEncodeKey (MakeStoreStatKey storeID stat)) ->
    exists e' : E,
      SetStat e rangeID storeID stat statVal = Returned e' /\
      GetRangeStat e' rangeID stat = (statVal, None).
Proof.
  intros e rangeID storeID stat statVal enc Hnz Hrange Henc Hsame Hother Hkeys.
  unfold SetStat, encodeStatValue. rewrite Henc.
  destruct (Z.eqb_spec statVal 0) as [Hz | _]; [contradiction|].
  destruct (Z.eqb_spec rangeID 0) as [Hz | _]; [contradiction|].
  simpl negb. cbv iota.
  destruct (Z.eqb_spec storeID 0) as [Hs | Hs]; simpl negb; cbv iota.
  - eexists. split; [reflexivity|].
    unfold GetRangeStat. rewrite Hsame. reflexivity.
  - eexists. split; [reflexivity|].
    unfold GetRangeStat. rewrite (Hother _ _ _ (Hkeys Hs)), Hsame.
    reflexivity.
Qed.

End Stats.

Lemma bytes_eqb_refl (k : list byte) : bytes_eqb k k = true.
Proof.
  unfold bytes_eqb. destruct (list_eq_dec byte_eq_dec k k);
    [reflexivity | contradiction].
Qed.

Lemma bytes_eqb_neq (k k' : list byte) : k <> k' -> bytes_eqb k k' = false.
Proof.
  intros H. unfold bytes_eqb. destruct (list_eq_dec byte_eq_dec k k');
    [contradiction | reflexivity].
Qed.

Lemma stat_noop_and_panic_witness :
  MergeStat (E := MemEngine) [] 1 2 [x6c] 0 = Returned [] /\
  SetStat (E := MemEngine) [] 0 0 [x6c] 5 = Returned [].
Proof.
  destruct (stat_noop_and_panic (E := MemEngine) [] 1 2 [x6c] 0)
    as (Hzero & _ & _).
  destruct (stat_noop_and_panic (E := MemEngine) [] 0 0 [x6c] 5)
    as (_ & Hids & _).
  split.
  - apply (Hzero eq_refl).
  - apply (Hids (EncodeUint64 5) eq_refl eq_refl eq_refl).
Defined.

Lemma set_then_get_range_stat_witness :
  exists e' : MemEngine,
    SetStat [] 1 2 [x6c] 5 = Returned e' /\
    GetRangeStat e' 1 [x6c] = (5, None).
Proof.
  apply (set_then_get_range_stat (E := MemEngine) [] 1 2 [x6c] 5
           (EncodeUint64 5)).
  - lia.
  - lia.
  - reflexivity.
  - intros e0 k. simpl. rewrite bytes_eqb_refl. reflexivity.
  - intros e0 k k' Hneq. simpl. rewrite (bytes_eqb_neq _ _ Hneq).
    reflexivity.
  - intros _. vm_compute. discriminate.
Defined.

End engine_props.


(** ** The dispatcher's retries on transient faults *)
Module dispatcher_props.
Import proto util client dispatcher.


Section Loop.
Context {St : Type}.
Variable transient : GoError -> bool.
Variable routing : RoutingSend St.
Variable call : Call.





End Loop.



End dispatcher_props.
